(** * Astrology Booklet portal (src/app.py): a shallow embedding

    The Streamlit frontend forwards operator actions to the FastAPI backend
    through three helpers, [get_headers], [make_request] and
    [show_response], and renders the outcome.  The development models

    - Python strings as lists of Unicode code points, with [str.upper];
    - the parts of the [requests] library the code relies on: the exception
      hierarchy, [Response.json] and the truthiness of a [Response];
    - the Streamlit calls as a log of rendered elements, and every HTTP call
      as an entry in a log of sent requests, threaded through a small
      state-and-exception monad that follows Python's [try]/[except]. *)

From Stdlib Require Import String Ascii List ZArith Bool Lia.
Import ListNotations.
Local Open Scope Z_scope.
Set Warnings "-register-all".

(* ------------------------------------------------------------------ *)
(** ** Python values *)

Module Py.

(** A Python [str]: a sequence of code points. *)
Definition pystr := list Z.

(** ASCII literals of the source. *)
Fixpoint lit (s : string) : pystr :=
  match s with
  | EmptyString => []
  | String c s' => Z.of_nat (nat_of_ascii c) :: lit s'
  end.

Definition pystr_eqb (a b : pystr) : bool :=
  if list_eq_dec Z.eq_dec a b then true else false.

(** Truthiness of a [str]. *)
Definition nonempty (s : pystr) : bool :=
  match s with [] => false | _ => true end.

(** [str.upper] on one code point.  ASCII letters are mapped as Python
    does, and so are all the non-ASCII code points whose full upper-case
    mapping consists of ASCII characters only (the sharp s, the dotless i,
    the long s and the Latin ligatures U+FB00..U+FB06).  Every other
    non-ASCII code point stays as it is: Python maps it to a string that
    contains a non-ASCII code point, as the identity does, so comparisons
    of an upper-cased string against an ASCII literal come out as in
    Python. *)
Definition upper_cp (c : Z) : list Z :=
  if (97 <=? c) && (c <=? 122) then [c - 32]
  else if c =? 223 then [83; 83]          (* U+00DF -> SS *)
  else if c =? 305 then [73]              (* U+0131 -> I *)
  else if c =? 383 then [83]              (* U+017F -> S *)
  else if c =? 64256 then [70; 70]        (* U+FB00 -> FF *)
  else if c =? 64257 then [70; 73]        (* U+FB01 -> FI *)
  else if c =? 64258 then [70; 76]        (* U+FB02 -> FL *)
  else if c =? 64259 then [70; 70; 73]    (* U+FB03 -> FFI *)
  else if c =? 64260 then [70; 70; 76]    (* U+FB04 -> FFL *)
  else if c =? 64261 then [83; 84]        (* U+FB05 -> ST *)
  else if c =? 64262 then [83; 84]        (* U+FB06 -> ST *)
  else [c].

Definition upper (s : pystr) : pystr := flat_map upper_cp s.

(** [str(n)] of a Python [int]. *)
Definition digit (d : Z) : Z := 48 + d.

Fixpoint dec_aux (fuel : nat) (n : Z) (acc : pystr) : pystr :=
  match fuel with
  | O => digit n :: acc
  | S f => if n <? 10 then digit n :: acc
           else dec_aux f (n / 10) (digit (n mod 10) :: acc)
  end.

Definition dec_nonneg (n : Z) : pystr :=
  dec_aux (S (Z.to_nat (Z.log2 n))) n [].

Definition str_int (z : Z) : pystr :=
  if z <? 0 then lit "-" ++ dec_nonneg (- z) else dec_nonneg z.

(** The values [json.loads] produces.  A float is kept as its Python
    [repr]; an object is the list of its key/value pairs in order. *)
Inductive json :=
| JNull
| JBool (b : bool)
| JInt (z : Z)
| JFloat (r : pystr)
| JStr (s : pystr)
| JList (l : list json)
| JObj (kvs : list (pystr * json)).

(** Lookup in a dict built from key/value pairs: a later pair overrides
    an earlier one with the same key. *)
Definition dict_lookup (k : pystr) (kvs : list (pystr * json)) : option json :=
  fold_left (fun acc kv => if pystr_eqb k (fst kv) then Some (snd kv) else acc)
            kvs None.

(** Truthiness ([bool(x)]) of a JSON value. *)
Definition truthy (j : json) : bool :=
  match j with
  | JNull => false
  | JBool b => b
  | JInt z => negb (z =? 0)
  | JFloat r => negb (pystr_eqb r (lit "0.0") || pystr_eqb r (lit "-0.0"))
  | JStr s => nonempty s
  | JList l => match l with [] => false | _ => true end
  | JObj kvs => match kvs with [] => false | _ => true end
  end.

(** [str(x)] of a JSON value; [container_str] is Python's [repr] of a list
    or a dict, which no claim depends on. *)
Definition str_value (container_str : json -> pystr) (j : json) : pystr :=
  match j with
  | JNull => lit "None"
  | JBool true => lit "True"
  | JBool false => lit "False"
  | JInt z => str_int z
  | JFloat r => r
  | JStr s => s
  | JList _ | JObj _ => container_str j
  end.

(** Keys of a dict without repetitions, for [len]. *)
Fixpoint distinct_keys (seen : list pystr) (kvs : list (pystr * json)) : list pystr :=
  match kvs with
  | [] => seen
  | (k, _) :: rest =>
      if existsb (pystr_eqb k) seen then distinct_keys seen rest
      else distinct_keys (seen ++ [k]) rest
  end.

End Py.

Import Py.

(* ------------------------------------------------------------------ *)
(** ** The [requests] library *)

Module Requests.

(** The exception classes of [requests.exceptions]. *)
Inductive req_kind :=
| RequestException
| ConnectionError | ProxyError | SSLError
| Timeout | ConnectTimeout | ReadTimeout
| HTTPError | TooManyRedirects | URLRequired
| MissingSchema | InvalidSchema | InvalidURL | InvalidHeader
| ChunkedEncodingError | ContentDecodingError | RetryError
| JSONDecodeError.

(** Exceptions the modelled code can meet: those of [requests] with their
    message, and the built-in ones. *)
Inductive exn :=
| RequestsExc (k : req_kind) (msg : pystr)
| AttributeError
| TypeError.

(** [isinstance(e, requests.exceptions.ConnectionError)]: [ProxyError],
    [SSLError] and [ConnectTimeout] derive from [ConnectionError]. *)
Definition is_ConnectionError (e : exn) : bool :=
  match e with
  | RequestsExc (ConnectionError | ProxyError | SSLError | ConnectTimeout) _ => true
  | _ => false
  end.

(** [isinstance(e, requests.exceptions.Timeout)]: [ConnectTimeout] derives
    from both [ConnectionError] and [Timeout]. *)
Definition is_Timeout (e : exn) : bool :=
  match e with
  | RequestsExc (Timeout | ConnectTimeout | ReadTimeout) _ => true
  | _ => false
  end.

(** [isinstance(e, requests.RequestException)]. *)
Definition is_RequestException (e : exn) : bool :=
  match e with
  | RequestsExc _ _ => true
  | _ => false
  end.

(** [str(e)]. *)
Definition str_exn (e : exn) : pystr :=
  match e with
  | RequestsExc _ m => m
  | AttributeError | TypeError => []
  end.

(** A [requests.Response]: its status code, [resp.text], and what
    [resp.json()] yields ([None] when it raises). *)
Record response := mkResponse {
  status_code : Z;
  text : pystr;
  json_result : option json
}.

(** [Response.__bool__] is [Response.ok]: false exactly when
    [raise_for_status] raises, i.e. for 400 <= status < 600. *)
Definition resp_bool (r : response) : bool :=
  negb ((400 <=? status_code r) && (status_code r <? 600)).

Inductive verb := GET | POST | PUT | DELETE.

(** Keyword arguments the code passes to [requests.get]/[requests.post]. *)
Record kwargs := mkKwargs {
  headers : list (pystr * pystr);
  json_body : option (list (pystr * json));
  timeout : Z
}.

(** What one HTTP call does: a response or a raised exception. *)
Inductive result := Resp (r : response) | Raise (e : exn).

End Requests.

Import Requests.

(* ------------------------------------------------------------------ *)
(** ** Streamlit output, sent requests, and the script monad *)

Module Ui.

Inductive element :=
| st_error (m : pystr)
| st_success (m : pystr)
| st_info (m : pystr)
| st_json (j : json)
| st_text_area (label body : pystr)
| st_markdown (m : pystr)
| st_write (m : pystr)
| sidebar_success (m : pystr)
| sidebar_error (m : pystr)
| sidebar_json (j : json).

Record call := mkCall {
  call_verb : verb;
  call_url : pystr;
  call_kwargs : kwargs
}.

(** What the script has rendered and which HTTP calls it has made. *)
Record world := mkWorld {
  shown : list element;
  sent : list call
}.

Inductive outcome (A : Type) := Ret (a : A) | Exc (e : exn).
Arguments Ret {A} a.
Arguments Exc {A} e.

Definition M (A : Type) := world -> outcome A * world.

Definition ret {A} (a : A) : M A := fun w => (Ret a, w).

Definition bind {A B} (c : M A) (k : A -> M B) : M B :=
  fun w => match c w with
           | (Ret a, w') => k a w'
           | (Exc e, w') => (Exc e, w')
           end.

Definition raise {A} (e : exn) : M A := fun w => (Exc e, w).

(** [try: body except ...]: [handler e] is [Some h] when an [except]
    clause matches [e]; otherwise the exception propagates. *)
Definition try_except {A} (body : M A) (handler : exn -> option (M A)) : M A :=
  fun w => match body w with
           | (Exc e, w') =>
               match handler e with
               | Some h => h w'
               | None => (Exc e, w')
               end
           | r => r
           end.

Definition emit (x : element) : M unit :=
  fun w => (Ret tt, mkWorld (shown w ++ [x]) (sent w)).

End Ui.

Import Ui.

Notation "x <- c1 ;; c2" := (bind c1 (fun x => c2))
  (at level 61, c1 at next level, right associativity).
Notation "c1 ;; c2" := (bind c1 (fun _ => c2))
  (at level 61, right associativity).

(* ------------------------------------------------------------------ *)
(** ** The application *)

Section App.

(** Python's [repr] of a list or a dict (see [str_value]). *)
Variable container_str : json -> pystr.
(** The HTTP layer: what [requests.get]/[post]/[put]/[delete] do on a URL
    with the given keyword arguments. *)
Variable transport : verb -> pystr -> kwargs -> result.
(** The sidebar fields [BASE_URL] and [token_input], read on every run. *)
Variable BASE_URL : pystr.
Variable token_input : pystr.

(** Code points of the emoji and symbols in the messages. *)
Definition cross_mark : pystr := [10060].            (* U+274C *)
Definition stopwatch : pystr := [9201; 65039].       (* U+23F1 U+FE0F *)
Definition check_mark : pystr := [9989].             (* U+2705 *)
Definition sun_sign : pystr := [9728; 65039].        (* U+2600 U+FE0F *)
Definition moon_sign : pystr := [127769].            (* U+1F319 *)
Definition up_arrow : pystr := [11014; 65039].       (* U+2B06 U+FE0F *)
Definition degree_sign : pystr := [176].             (* U+00B0 *)

(** One HTTP call: it is recorded as sent, then yields the response or
    raises. *)
Definition requests_call (v : verb) (url : pystr) (kw : kwargs) : M response :=
  fun w =>
    (match transport v url kw with
     | Resp r => Ret r
     | Raise e => Exc e
     end,
     mkWorld (shown w) (sent w ++ [mkCall v url kw])).

(** [get_headers(require_auth)] *)
Definition get_headers (require_auth : bool) : list (pystr * pystr) :=
  let headers := [(lit "Accept", lit "application/json");
                  (lit "Content-Type", lit "application/json")] in
  if require_auth && nonempty token_input
  then headers ++ [(lit "Authorization", lit "Bearer " ++ token_input)]
  else headers.

(** [resp.json()] *)
Definition resp_json (r : response) : M json :=
  match json_result r with
  | Some j => ret j
  | None => raise (RequestsExc JSONDecodeError (lit "Expecting value"))
  end.

(** [d.get(key, default)]: an [AttributeError] unless [d] is a dict. *)
Definition py_get (d : json) (key : pystr) (default : json) : M json :=
  match d with
  | JObj kvs =>
      match dict_lookup key kvs with
      | Some v => ret v
      | None => ret default
      end
  | _ => raise AttributeError
  end.

(** [len(x)] *)
Definition py_len (j : json) : M Z :=
  match j with
  | JStr s => ret (Z.of_nat (length s))
  | JList l => ret (Z.of_nat (length l))
  | JObj kvs => ret (Z.of_nat (length (distinct_keys [] kvs)))
  | _ => raise TypeError
  end.

(** [show_response(resp, success_message)]; [None] is [JNull]. *)
Definition show_response (resp : response) (success_message : option pystr) : M json :=
  if status_code resp <? 400 then
    (match success_message with
     | Some m => if nonempty m then emit (st_success m) else ret tt
     | None => ret tt
     end) ;;
    try_except
      (data <- resp_json resp ;;
       emit (st_json data) ;;
       ret data)
      (fun _ => Some (emit (st_text_area (lit "Raw response (text)") (text resp)) ;;
                      ret JNull))
  else
    try_except
      (error_data <- resp_json resp ;;
       detail <- py_get error_data (lit "detail") (JStr (lit "Unknown error")) ;;
       emit (st_error (lit "Error " ++ str_int (status_code resp) ++ lit ": "
                       ++ str_value container_str detail)) ;;
       ret JNull)
      (fun _ => Some (emit (st_error (lit "Error " ++ str_int (status_code resp)
                                      ++ lit ": " ++ text resp)) ;;
                      ret JNull)).

(** The messages of the three [except] clauses of [make_request]. *)
Definition connection_failed_msg : pystr :=
  cross_mark ++ lit " Connection failed. Is the backend running at "
             ++ BASE_URL ++ lit "?".
Definition timed_out_msg : pystr := stopwatch ++ lit " Request timed out".
Definition request_failed_msg (e : exn) : pystr :=
  cross_mark ++ lit " Request failed: " ++ str_exn e.

(** [make_request(method, url, **kwargs)]; [None] is [None]. *)
Definition make_request (method : pystr) (url : pystr) (kw : kwargs)
  : M (option response) :=
  try_except
    (if pystr_eqb (upper method) (lit "GET") then
       resp <- requests_call GET url kw ;; ret (Some resp)
     else if pystr_eqb (upper method) (lit "POST") then
       resp <- requests_call POST url kw ;; ret (Some resp)
     else if pystr_eqb (upper method) (lit "PUT") then
       resp <- requests_call PUT url kw ;; ret (Some resp)
     else if pystr_eqb (upper method) (lit "DELETE") then
       resp <- requests_call DELETE url kw ;; ret (Some resp)
     else
       emit (st_error (lit "Unsupported method: " ++ method)) ;;
       ret None)
    (fun e =>
       if is_ConnectionError e then
         Some (emit (st_error connection_failed_msg) ;; ret None)
       else if is_Timeout e then
         Some (emit (st_error timed_out_msg) ;; ret None)
       else if is_RequestException e then
         Some (emit (st_error (request_failed_msg e)) ;; ret None)
       else None).

(** [if resp:] on the value [make_request] returns. *)
Definition truthy_resp (resp : option response) : bool :=
  match resp with
  | Some r => resp_bool r
  | None => false
  end.

(** A date and a time as [st.date_input]/[st.time_input] return them. *)
Record date := mkDate { year : Z; month : Z; day : Z }.
Record time := mkTime { hour : Z; minute : Z }.

(** Zero-padded two-digit field of [strftime] ([%m], [%d], [%H], [%M]). *)
Definition pad2 (n : Z) : pystr := [digit (n / 10); digit (n mod 10)].

(** [birthdate.strftime('%Y-%m-%d')]; glibc prints [%Y] without padding. *)
Definition strftime_date (d : date) : pystr :=
  str_int (year d) ++ lit "-" ++ pad2 (month d) ++ lit "-" ++ pad2 (day d).

(** [birthtime.strftime('%H:%M')] *)
Definition strftime_time (t : time) : pystr :=
  pad2 (hour t) ++ lit ":" ++ pad2 (minute t).

(** The widgets of the Create/Update form. *)
Record user_form := mkForm {
  first_name : pystr;
  last_name : pystr;
  birthdate : option date;
  birthtime : option time;
  city : pystr;
  country : pystr;
  login : pystr;
  timezone : pystr
}.

(** [if x: payload[key] = x] for a text field (a new key is appended). *)
Definition add_text (key : pystr) (v : pystr) (payload : list (pystr * json))
  : list (pystr * json) :=
  if nonempty v then payload ++ [(key, JStr v)] else payload.

(** The payload built by the "Save User" branch. *)
Definition build_payload (f : user_form) : list (pystr * json) :=
  let payload := [(lit "first_name", JStr (first_name f))] in
  let payload := add_text (lit "last_name") (last_name f) payload in
  let payload := match birthdate f with
                 | Some d => payload ++ [(lit "birthdate", JStr (strftime_date d))]
                 | None => payload
                 end in
  let payload := match birthtime f with
                 | Some t => payload ++ [(lit "birthtime", JStr (strftime_time t))]
                 | None => payload
                 end in
  let payload := add_text (lit "city") (city f) payload in
  let payload := add_text (lit "country") (country f) payload in
  let payload := add_text (lit "login") (login f) payload in
  add_text (lit "timezone") (timezone f) payload.

(** The actions of the select box, with the values of their inputs. *)
Inductive action :=
| ViewAllUsers
| GetUserByID (user_id : Z)
| CreateUpdateUser (form : user_form)
| GetPlacements (user_id : Z)
| GetBigThree (user_id : Z)
| GenerateBooklet (user_id : Z)
| GenerateCalendar (user_id year : Z).

Definition plain_get (timeout_s : Z) : kwargs :=
  mkKwargs (get_headers false) None timeout_s.

(** One line of the Big Three summary: [if data.get(key):
    st.write(f"{prefix}{data[key].get('sign', 'N/A')}
    {data[key].get('degree', '')}°")]. *)
Definition summary_line (data : json) (key prefix : pystr) : M unit :=
  body <- py_get data key JNull ;;
  if truthy body then
    sign <- py_get body (lit "sign") (JStr (lit "N/A")) ;;
    degree <- py_get body (lit "degree") (JStr []) ;;
    emit (st_write (prefix ++ str_value container_str sign ++ lit " "
                    ++ str_value container_str degree ++ degree_sign))
  else ret tt.

(** The Generate Booklet / Calendar branch after the request. *)
Definition pdf_result (resp : option response) (msg : pystr) : M unit :=
  match resp with
  | Some r =>
      if resp_bool r && (status_code r =? 200) then
        emit (st_success (check_mark ++ msg)) ;;
        emit (st_info (lit "The PDF has been saved to your Downloads folder."))
      else if resp_bool r then
        _ <- show_response r None ;; ret tt
      else ret tt
  | None => ret tt
  end.

(** The run of the script when the action's button is clicked. *)
Definition run_action (a : action) : M unit :=
  match a with
  | ViewAllUsers =>
      resp <- make_request (lit "GET") (BASE_URL ++ lit "/users") (plain_get 10) ;;
      match resp with
      | Some r =>
          if resp_bool r then
            data <- show_response r None ;;
            if truthy data then
              n <- py_len data ;;
              emit (st_info (lit "Found " ++ str_int n ++ lit " user(s)"))
            else ret tt
          else ret tt
      | None => ret tt
      end
  | GetUserByID uid =>
      resp <- make_request (lit "GET") (BASE_URL ++ lit "/users/" ++ str_int uid)
                           (plain_get 10) ;;
      match resp with
      | Some r => if resp_bool r then _ <- show_response r None ;; ret tt else ret tt
      | None => ret tt
      end
  | CreateUpdateUser f =>
      if negb (nonempty (first_name f)) then
        emit (st_error (lit "First name is required!"))
      else
        resp <- make_request (lit "POST") (BASE_URL ++ lit "/users")
                  (mkKwargs (get_headers true) (Some (build_payload f)) 10) ;;
        match resp with
        | Some r =>
            if resp_bool r then
              _ <- show_response r (Some (check_mark ++ lit " User saved successfully!")) ;;
              ret tt
            else ret tt
        | None => ret tt
        end
  | GetPlacements uid =>
      resp <- make_request (lit "GET")
                (BASE_URL ++ lit "/users/" ++ str_int uid ++ lit "/placements")
                (plain_get 30) ;;
      match resp with
      | Some r => if resp_bool r then _ <- show_response r None ;; ret tt else ret tt
      | None => ret tt
      end
  | GetBigThree uid =>
      resp <- make_request (lit "GET")
                (BASE_URL ++ lit "/users/" ++ str_int uid ++ lit "/big-three")
                (plain_get 30) ;;
      match resp with
      | Some r =>
          if resp_bool r then
            data <- show_response r None ;;
            if truthy data then
              emit (st_markdown (lit "### Astrology Summary")) ;;
              summary_line data (lit "Sun") (sun_sign ++ lit " **Sun**: ") ;;
              summary_line data (lit "Moon") (moon_sign ++ lit " **Moon**: ") ;;
              summary_line data (lit "Asc") (up_arrow ++ lit " **Ascendant**: ")
            else ret tt
          else ret tt
      | None => ret tt
      end
  | GenerateBooklet uid =>
      resp <- make_request (lit "GET")
                (BASE_URL ++ lit "/users/" ++ str_int uid ++ lit "/booklet")
                (plain_get 120) ;;
      pdf_result resp (lit " Booklet generated successfully!")
  | GenerateCalendar uid y =>
      resp <- make_request (lit "GET")
                (BASE_URL ++ lit "/users/" ++ str_int uid ++ lit "/calendar?year="
                          ++ str_int y)
                (plain_get 120) ;;
      pdf_result resp (lit " Calendar generated successfully!")
  end.

(** The run of the script when the sidebar health button is clicked. *)
Definition health_check : M unit :=
  resp <- make_request (lit "GET") (BASE_URL ++ lit "/health") (plain_get 5) ;;
  match resp with
  | Some r =>
      if resp_bool r then
        if status_code r =? 200 then
          emit (sidebar_success (check_mark ++ lit " Backend is healthy!")) ;;
          try_except (health_data <- resp_json r ;; emit (sidebar_json health_data))
                     (fun _ => Some (ret tt))
        else emit (sidebar_error (cross_mark ++ lit " Backend health check failed"))
      else ret tt
  | None => ret tt
  end.

End App.

(* ------------------------------------------------------------------ *)
(** ** Vocabulary of the statements *)

(** The method name a verb is dispatched on. *)
Definition method_name (v : verb) : pystr :=
  match v with
  | GET => lit "GET"
  | POST => lit "POST"
  | PUT => lit "PUT"
  | DELETE => lit "DELETE"
  end.

Definition supported_methods : list pystr :=
  [lit "GET"; lit "POST"; lit "PUT"; lit "DELETE"].

(** [needle] occurs in [hay]. *)
Fixpoint prefixb (p s : pystr) : bool :=
  match p, s with
  | [], _ => true
  | _ :: _, [] => false
  | x :: p', y :: s' => (x =? y) && prefixb p' s'
  end.

Fixpoint infixb (needle hay : pystr) : bool :=
  match hay with
  | [] => prefixb needle []
  | _ :: hay' => prefixb needle hay || infixb needle hay'
  end.

(** A command renders [out] and sends [calls] on top of what the world
    already holds. *)
Definition adds {A} (c : M A) (w : world) (a : outcome A) (out : list element)
  (calls : list call) : Prop :=
  c w = (a, mkWorld (shown w ++ out) (sent w ++ calls)).

(** A command sends exactly [calls], whatever it renders or raises. *)
Definition sends {A} (calls : list call) (c : M A) : Prop :=
  forall w, sent (snd (c w)) = sent w ++ calls.

(** The success banner [show_response] draws for its [success_message]. *)
Definition banner (success_message : option pystr) : list element :=
  match success_message with
  | Some m => if nonempty m then [st_success m] else []
  | None => []
  end.

(** What the error branch of [show_response] prints after the status. *)
Definition error_detail (container_str : json -> pystr) (r : response) : pystr :=
  match json_result r with
  | Some (JObj kvs) =>
      str_value container_str
        (match dict_lookup (lit "detail") kvs with
         | Some v => v
         | None => JStr (lit "Unknown error")
         end)
  | _ => text r
  end.

(** The message [make_request] shows for an exception it catches. *)
Definition failure_message (BASE_URL : pystr) (e : exn) : pystr :=
  if is_ConnectionError e then connection_failed_msg BASE_URL
  else if is_Timeout e then timed_out_msg
  else request_failed_msg e.

(** An ASCII digit. *)
Definition is_digit (c : Z) : bool := (48 <=? c) && (c <=? 57).

(** Reading back a [HH:MM] string: two digits, a colon, two digits. *)
Definition parse_hh_mm (s : pystr) : option (Z * Z) :=
  match s with
  | [h1; h2; 58; m1; m2] =>
      if forallb is_digit [h1; h2; m1; m2]
      then Some (10 * (h1 - 48) + (h2 - 48), 10 * (m1 - 48) + (m2 - 48))
      else None
  | _ => None
  end.

(** Reading back a [YYYY-MM-DD] string. *)
Definition parse_yyyy_mm_dd (s : pystr) : option (Z * Z * Z) :=
  match s with
  | [y1; y2; y3; y4; 45; m1; m2; 45; d1; d2] =>
      if forallb is_digit [y1; y2; y3; y4; m1; m2; d1; d2]
      then Some (1000 * (y1 - 48) + 100 * (y2 - 48) + 10 * (y3 - 48) + (y4 - 48),
                 10 * (m1 - 48) + (m2 - 48), 10 * (d1 - 48) + (d2 - 48))
      else None
  | _ => None
  end.

(** The external-interface table of the spec: verb, path below the base
    URL (with the query), timeout in seconds, and whether the headers are
    built with [require_auth]. *)
Definition spec_endpoint (a : action) : verb * pystr * Z * bool :=
  match a with
  | ViewAllUsers => (GET, lit "/users", 10, false)
  | GetUserByID uid => (GET, lit "/users/" ++ str_int uid, 10, false)
  | CreateUpdateUser _ => (POST, lit "/users", 10, true)
  | GetPlacements uid => (GET, lit "/users/" ++ str_int uid ++ lit "/placements", 30, false)
  | GetBigThree uid => (GET, lit "/users/" ++ str_int uid ++ lit "/big-three", 30, false)
  | GenerateBooklet uid => (GET, lit "/users/" ++ str_int uid ++ lit "/booklet", 120, false)
  | GenerateCalendar uid y =>
      (GET, lit "/users/" ++ str_int uid ++ lit "/calendar" ++ lit "?year=" ++ str_int y,
       120, false)
  end.

(** The JSON body an action sends. *)
Definition action_body (a : action) : option (list (pystr * json)) :=
  match a with
  | CreateUpdateUser f => Some (build_payload f)
  | _ => None
  end.

(** No key occurs twice. *)
Fixpoint all_distinct (l : list pystr) : bool :=
  match l with
  | [] => true
  | x :: r => negb (existsb (pystr_eqb x) r) && all_distinct r
  end.

(** [d.get(key, default)] on the pairs of a dict. *)
Definition get_or (kvs : list (pystr * json)) (key : pystr) (default : json) : json :=
  match dict_lookup key kvs with
  | Some v => v
  | None => default
  end.

(** The summary line written for a planet entry that is a dict. *)
Definition planet_line (container_str : json -> pystr) (prefix : pystr)
  (entry : list (pystr * json)) : element :=
  st_write (prefix ++ str_value container_str (get_or entry (lit "sign") (JStr (lit "N/A")))
            ++ lit " " ++ str_value container_str (get_or entry (lit "degree") (JStr []))
            ++ degree_sign).

(* ------------------------------------------------------------------ *)
(** ** General facts *)

Lemma pystr_eqb_refl (s : pystr) : pystr_eqb s s = true.
Proof. unfold pystr_eqb; destruct (list_eq_dec Z.eq_dec s s); congruence. Qed.

Lemma pystr_eqb_neq (a b : pystr) : a <> b -> pystr_eqb a b = false.
Proof. unfold pystr_eqb; destruct (list_eq_dec Z.eq_dec a b); congruence. Qed.

(** Decide equalities between literals of the source. *)
Ltac eval_lit_eqb :=
  repeat match goal with
  | |- context [pystr_eqb (lit ?a) (lit ?b)] =>
      let v := eval vm_compute in (pystr_eqb (lit a) (lit b)) in
      change (pystr_eqb (lit a) (lit b)) with v
  end.

Lemma pystr_eqb_eq (a b : pystr) : pystr_eqb a b = true <-> a = b.
Proof. unfold pystr_eqb; destruct (list_eq_dec Z.eq_dec a b); split; congruence. Qed.

Lemma existsb_pystr_In (k : pystr) (l : list pystr) :
  existsb (pystr_eqb k) l = true <-> In k l.
Proof.
  rewrite existsb_exists. split.
  - intros [x [Hx E]]. apply pystr_eqb_eq in E. now subst.
  - intros H. exists k. split; [exact H | apply pystr_eqb_refl].
Qed.

Lemma all_distinct_NoDup (l : list pystr) : all_distinct l = true -> NoDup l.
Proof.
  induction l as [| x r IH]; simpl; intros H; constructor.
  - apply andb_true_iff in H as [H _]. intros Hin.
    apply existsb_pystr_In in Hin. rewrite Hin in H. discriminate.
  - apply andb_true_iff in H as [_ H]. now apply IH.
Qed.

(** Arithmetic with division and remainder by constants. *)
Ltac zlia := Z.div_mod_to_equations; lia.

Lemma dec_nonneg_4 (y : Z) : 1000 <= y <= 9999 ->
  dec_nonneg y = [digit (y / 10 / 10 / 10); digit (y / 10 / 10 mod 10);
                  digit (y / 10 mod 10); digit (y mod 10)].
Proof.
  intros Hy. unfold dec_nonneg.
  assert (Hl : 9 <= Z.log2 y) by (change 9 with (Z.log2 512); apply Z.log2_le_mono; lia).
  destruct (Z.to_nat (Z.log2 y)) as [| [| [| k]]] eqn:E;
    try (apply (f_equal Z.of_nat) in E; rewrite Z2Nat.id in E by lia; lia).
  cbn [dec_aux].
  replace (y <? 10) with false by (symmetry; apply Z.ltb_ge; lia).
  replace (y / 10 <? 10) with false by (symmetry; apply Z.ltb_ge; zlia).
  replace (y / 10 / 10 <? 10) with false by (symmetry; apply Z.ltb_ge; zlia).
  replace (y / 10 / 10 / 10 <? 10) with true by (symmetry; apply Z.ltb_lt; zlia).
  reflexivity.
Qed.

Lemma is_digit_of (n : Z) : 0 <= n <= 9 -> is_digit (digit n) = true.
Proof. intros H. unfold is_digit, digit. apply andb_true_iff; split; apply Z.leb_le; lia. Qed.

(** [%Y-%m-%d] of a four-digit year reads back as the date. *)
Lemma strftime_date_format (d : date) :
  1000 <= year d <= 9999 -> 1 <= month d <= 12 -> 1 <= day d <= 31 ->
  parse_yyyy_mm_dd (strftime_date d) = Some (year d, month d, day d).
Proof.
  intros Hy Hm Hd. unfold strftime_date, str_int.
  replace (year d <? 0) with false by (symmetry; apply Z.ltb_ge; lia).
  rewrite dec_nonneg_4 by exact Hy.
  unfold pad2. change (lit "-") with [45]. cbn [app].
  unfold parse_yyyy_mm_dd. cbn [forallb].
  rewrite !is_digit_of by zlia. cbn [andb].
  unfold digit. f_equal. f_equal; [f_equal |]; zlia.
Qed.

(** [%H:%M] reads back as the time. *)
Lemma strftime_time_format (t : time) :
  0 <= hour t <= 23 -> 0 <= minute t <= 59 ->
  parse_hh_mm (strftime_time t) = Some (hour t, minute t).
Proof.
  intros Hh Hm. unfold strftime_time, pad2. change (lit ":") with [58]. cbn [app].
  unfold parse_hh_mm. cbn [forallb].
  rewrite !is_digit_of by zlia. cbn [andb].
  unfold digit. f_equal. f_equal; zlia.
Qed.

Section Facts.

Variable container_str : json -> pystr.
Variable transport : verb -> pystr -> kwargs -> result.
Variable BASE_URL token_input : pystr.

(** [make_request] on a supported method: one call is sent; a response is
    returned as it is, a [requests] exception becomes a message. *)
Lemma make_request_supported (v : verb) (method url : pystr) (kw : kwargs) (w : world) :
  upper method = method_name v ->
  make_request transport BASE_URL method url kw w =
  match transport v url kw with
  | Resp r => (Ret (Some r), mkWorld (shown w) (sent w ++ [mkCall v url kw]))
  | Raise e =>
      if is_RequestException e then
        (Ret None, mkWorld (shown w ++ [st_error (failure_message BASE_URL e)])
                           (sent w ++ [mkCall v url kw]))
      else (Exc e, mkWorld (shown w) (sent w ++ [mkCall v url kw]))
  end.
Proof.
  intros Hup. unfold make_request, try_except. rewrite Hup.
  destruct v; cbn [method_name]; eval_lit_eqb; cbn iota;
    unfold bind, requests_call, ret;
    destruct (transport _ url kw) as [r | e]; try reflexivity;
    unfold failure_message, emit;
    destruct e as [k m | |]; try reflexivity;
    destruct k; reflexivity.
Qed.

(** [make_request] on a method outside the four: the error message, no
    call. *)
Lemma make_request_not_supported (method url : pystr) (kw : kwargs) (w : world) :
  ~ In (upper method) supported_methods ->
  make_request transport BASE_URL method url kw w =
  (Ret None, mkWorld (shown w ++ [st_error (lit "Unsupported method: " ++ method)])
                     (sent w)).
Proof.
  intros Hnot. unfold supported_methods in Hnot.
  unfold make_request.
  rewrite !pystr_eqb_neq by (intro E; apply Hnot; rewrite E; simpl; tauto).
  reflexivity.
Qed.

End Facts.

(** Case analysis on the integer comparisons of the goal. *)
Ltac z_cases :=
  repeat (match goal with
          | |- context [Z.leb ?a ?b] => destruct (Z.leb_spec a b)
          | |- context [Z.eqb ?a ?b] => destruct (Z.eqb_spec a b)
          end; cbn [andb]; try (exfalso; lia)).

(** A code point [str.upper] leaves alone. *)
Definition upper_fixed (x : Z) : Prop := upper_cp x = [x].

Lemma upper_cp_fixed (c : Z) : Forall upper_fixed (upper_cp c).
Proof.
  unfold upper_cp at 1.
  z_cases; repeat constructor; unfold upper_fixed, upper_cp; z_cases;
    try reflexivity; exfalso; lia.
Qed.

Lemma flat_map_upper_fixed (l : list Z) :
  Forall upper_fixed l -> flat_map upper_cp l = l.
Proof.
  induction 1 as [| x l Hx _ IH]; [reflexivity |].
  simpl. unfold upper_fixed in Hx. rewrite Hx, IH. reflexivity.
Qed.

(** [str.upper] is idempotent. *)
Lemma upper_idem (s : pystr) : upper (upper s) = upper s.
Proof.
  unfold upper. induction s as [| c s IH]; [reflexivity |].
  simpl. rewrite flat_map_app, IH, flat_map_upper_fixed by apply upper_cp_fixed.
  reflexivity.
Qed.

Lemma supported_method_name (m : pystr) :
  In m supported_methods -> exists v, m = method_name v.
Proof.
  simpl. intros [<- | [<- | [<- | [<- | []]]]];
    [exists GET | exists POST | exists PUT | exists DELETE]; reflexivity.
Qed.

(** Unfolding of the monad. *)
Ltac run_m :=
  unfold adds, resp_json, py_get, py_len, bind, ret, raise, emit, try_except in *;
  cbn beta iota zeta in *.

(* ------------------------------------------------------------------ *)
(** ** get_headers *)

(** C5: whatever the token and the [require_auth] flag, [get_headers]
    contains [Accept: application/json] and [Content-Type:
    application/json]; it has an [Authorization] entry exactly when
    [require_auth] holds and the token is non-empty, and that entry is
    [Bearer <token>].  The function is total: a missing token is no
    error. *)
Theorem get_headers_contract (token_input : pystr) (require_auth : bool) :
  let hs := get_headers token_input require_auth in
  In (lit "Accept", lit "application/json") hs /\
  In (lit "Content-Type", lit "application/json") hs /\
  ((exists v, In (lit "Authorization", v) hs) <->
     require_auth = true /\ token_input <> []) /\
  (forall v, In (lit "Authorization", v) hs -> v = lit "Bearer " ++ token_input).
Proof.
  unfold get_headers; cbv zeta.
  destruct (require_auth && nonempty token_input) eqn:Hb.
  - apply andb_true_iff in Hb as [-> Hne].
    split; [simpl; tauto | split; [simpl; tauto | split; [split |]]].
    + intros _. split; [reflexivity |].
      destruct token_input; [discriminate Hne | discriminate].
    + intros _. exists (lit "Bearer " ++ token_input). simpl; tauto.
    + intros v Hin. simpl in Hin.
      destruct Hin as [E | [E | [E | []]]]; try discriminate E.
      now injection E.
  - split; [simpl; tauto | split; [simpl; tauto | split; [split |]]].
    + intros [v Hin]. simpl in Hin.
      destruct Hin as [E | [E | []]]; discriminate E.
    + intros [-> Hne]. destruct token_input; [congruence | discriminate].
    + intros v Hin. simpl in Hin.
      destruct Hin as [E | [E | []]]; discriminate E.
Qed.

(* ------------------------------------------------------------------ *)
(** ** make_request on an unsupported method *)

(** C2: when [method.upper()] is none of GET, POST, PUT, DELETE,
    [make_request] shows [Unsupported method: <method>], returns [None] and
    sends no request. *)
Theorem make_request_unsupported
  (transport : verb -> pystr -> kwargs -> result) (BASE_URL method url : pystr)
  (kw : kwargs) (w : world) :
  ~ In (upper method) supported_methods ->
  adds (make_request transport BASE_URL method url kw) w (Ret None)
       [st_error (lit "Unsupported method: " ++ method)] [].
Proof.
  intros Hnot. unfold adds. rewrite make_request_not_supported by exact Hnot.
  now rewrite app_nil_r.
Qed.

Lemma make_request_unsupported_witness :
  ~ In (upper (lit "PATCH")) supported_methods /\
  adds (make_request (fun _ _ _ => Raise TypeError) (lit "http://localhost:8010")
          (lit "PATCH") (lit "http://localhost:8010/users") (mkKwargs [] None 10))
       (mkWorld [] []) (Ret None)
       [st_error (lit "Unsupported method: " ++ lit "PATCH")] [].
Proof.
  assert (H : ~ In (upper (lit "PATCH")) supported_methods)
    by (intros H; simpl in H; intuition discriminate).
  split; [exact H | apply make_request_unsupported; exact H].
Defined.

(* ------------------------------------------------------------------ *)
(** ** make_request on a transport failure *)

(** C1 (as the code has it): on a supported method, every exception of
    [requests] raised by the HTTP call is caught: [make_request] sends the
    one call, shows one message, returns [None] and raises nothing.  The
    message is the connection message for a [ConnectionError] (including a
    [ConnectTimeout], which [requests] derives from both [ConnectionError]
    and [Timeout]), the timeout message for any other [Timeout] (such as a
    [ReadTimeout]), and [Request failed: <e>] for every other exception;
    the three messages differ from one another. *)
Theorem make_request_transport_failure
  (transport : verb -> pystr -> kwargs -> result) (BASE_URL : pystr) (v : verb)
  (method url : pystr) (kw : kwargs) (e : exn) (w : world) :
  upper method = method_name v ->
  transport v url kw = Raise e ->
  is_RequestException e = true ->
  adds (make_request transport BASE_URL method url kw) w (Ret None)
       [st_error (failure_message BASE_URL e)] [mkCall v url kw] /\
  (forall e' : exn,
     connection_failed_msg BASE_URL <> timed_out_msg /\
     connection_failed_msg BASE_URL <> request_failed_msg e' /\
     timed_out_msg <> request_failed_msg e').
Proof.
  intros Hup Htr Hreq. split.
  - unfold adds. rewrite (make_request_supported transport BASE_URL v) by exact Hup.
    now rewrite Htr, Hreq.
  - intros e'. unfold connection_failed_msg, timed_out_msg, request_failed_msg,
      cross_mark, stopwatch.
    repeat split; simpl; intro E; discriminate E.
Qed.

Lemma make_request_transport_failure_witness :
  upper (lit "get") = method_name GET /\
  (fun (_ : verb) (_ : pystr) (_ : kwargs) =>
     Raise (RequestsExc ReadTimeout (lit "Read timed out."))) GET (lit "u")
    (mkKwargs [] None 10) = Raise (RequestsExc ReadTimeout (lit "Read timed out.")) /\
  is_RequestException (RequestsExc ReadTimeout (lit "Read timed out.")) = true /\
  adds (make_request (fun _ _ _ => Raise (RequestsExc ReadTimeout (lit "Read timed out.")))
          (lit "http://localhost:8010") (lit "get") (lit "u") (mkKwargs [] None 10))
       (mkWorld [] []) (Ret None)
       [st_error (failure_message (lit "http://localhost:8010")
                    (RequestsExc ReadTimeout (lit "Read timed out.")))]
       [mkCall GET (lit "u") (mkKwargs [] None 10)].
Proof.
  split; [reflexivity | split; [reflexivity | split; [reflexivity |]]].
  exact (proj1 (make_request_transport_failure
                  (fun _ _ _ => Raise (RequestsExc ReadTimeout (lit "Read timed out.")))
                  (lit "http://localhost:8010") GET (lit "get") (lit "u")
                  (mkKwargs [] None 10) (RequestsExc ReadTimeout (lit "Read timed out."))
                  (mkWorld [] []) eq_refl eq_refl eq_refl)).
Defined.

(** C1 fails as stated: a [ConnectTimeout] is a timeout, yet it is
    reported exactly as a plain [ConnectionError], with the connection
    message and not the timeout message. *)
Lemma connect_timeout_reported_as_connection_cex :
  let B := lit "http://10.255.255.1:8010" in
  let kw := mkKwargs [] None 10 in
  let raising k := fun (_ : verb) (_ : pystr) (_ : kwargs) => Raise (RequestsExc k []) in
  is_Timeout (RequestsExc ConnectTimeout []) = true /\
  make_request (raising ConnectTimeout) B (lit "GET") (B ++ lit "/health") kw
    (mkWorld [] []) =
  make_request (raising ConnectionError) B (lit "GET") (B ++ lit "/health") kw
    (mkWorld [] []) /\
  make_request (raising ConnectTimeout) B (lit "GET") (B ++ lit "/health") kw
    (mkWorld [] []) =
  (Ret None, mkWorld [st_error (connection_failed_msg B)]
                     [mkCall GET (B ++ lit "/health") kw]) /\
  connection_failed_msg B <> timed_out_msg.
Proof.
  split; [reflexivity | split; [reflexivity | split; [reflexivity |]]].
  vm_compute. discriminate.
Qed.

(** C10 (as the code has it): [make_request m] and
    [make_request (m.upper())] return the same value and send the same
    calls; on a supported method they are the same run; on an unsupported
    one each shows [Unsupported method:] followed by the string it was
    given. *)
Theorem make_request_upper
  (transport : verb -> pystr -> kwargs -> result) (BASE_URL method url : pystr)
  (kw : kwargs) (w : world) :
  let run m := make_request transport BASE_URL m url kw w in
  fst (run method) = fst (run (upper method)) /\
  sent (snd (run method)) = sent (snd (run (upper method))) /\
  (In (upper method) supported_methods -> run method = run (upper method)) /\
  (~ In (upper method) supported_methods ->
     shown (snd (run method)) =
       shown w ++ [st_error (lit "Unsupported method: " ++ method)] /\
     shown (snd (run (upper method))) =
       shown w ++ [st_error (lit "Unsupported method: " ++ upper method)]).
Proof.
  cbv zeta.
  destruct (in_dec (list_eq_dec Z.eq_dec) (upper method) supported_methods) as [Hin | Hnot].
  - destruct (supported_method_name _ Hin) as [v Hv].
    assert (Hv' : upper (upper method) = method_name v) by (rewrite upper_idem; exact Hv).
    assert (E : make_request transport BASE_URL method url kw w =
                make_request transport BASE_URL (upper method) url kw w)
      by (rewrite (make_request_supported transport BASE_URL v method) by exact Hv;
          rewrite (make_request_supported transport BASE_URL v (upper method)) by exact Hv';
          reflexivity).
    rewrite E. split; [reflexivity | split; [reflexivity |]].
    split; [intros _; reflexivity | intros Hn; contradiction].
  - assert (Hnot' : ~ In (upper (upper method)) supported_methods)
      by (rewrite upper_idem; exact Hnot).
    rewrite (make_request_not_supported transport BASE_URL method) by exact Hnot.
    rewrite (make_request_not_supported transport BASE_URL (upper method)) by exact Hnot'.
    split; [reflexivity | split; [reflexivity |]].
    split; [intros Hin; contradiction | intros _; split; reflexivity].
Qed.

(** C10 fails as stated: on the unsupported method [foo] the two runs
    show different messages. *)
Lemma make_request_upper_message_cex :
  make_request (fun _ _ _ => Raise TypeError) [] (lit "foo") (lit "u")
    (mkKwargs [] None 10) (mkWorld [] []) <>
  make_request (fun _ _ _ => Raise TypeError) [] (upper (lit "foo")) (lit "u")
    (mkKwargs [] None 10) (mkWorld [] []).
Proof. vm_compute. discriminate. Qed.

(* ------------------------------------------------------------------ *)
(** ** show_response *)

Section ShowResponse.

Variable container_str : json -> pystr.

(** C4: for a status below 400, [show_response] draws the success banner
    when it has one, then, when [resp.json()] succeeds, renders the parsed
    value and returns it unchanged; when it fails, it renders the raw text
    in a text area and returns [None]. *)
Theorem show_response_success (r : response) (success_message : option pystr)
  (w : world) :
  status_code r < 400 ->
  match json_result r with
  | Some data =>
      adds (show_response container_str r success_message) w (Ret data)
           (banner success_message ++ [st_json data]) []
  | None =>
      adds (show_response container_str r success_message) w (Ret JNull)
           (banner success_message ++
            [st_text_area (lit "Raw response (text)") (text r)]) []
  end.
Proof.
  intros Hlt. unfold show_response.
  replace (status_code r <? 400) with true by (symmetry; apply Z.ltb_lt; exact Hlt).
  unfold banner. run_m.
  destruct success_message as [m |]; [destruct (nonempty m) eqn:Hm |];
    destruct (json_result r) as [data |]; rewrite ?Hm;
    simpl; rewrite ?app_nil_r, <- ?app_assoc; reflexivity.
Qed.

(** C3 (as the code has it): for a status of 400 or more, [show_response]
    shows [Error <status>: ...] followed by the [detail] field (or
    [Unknown error]) when the body is a JSON object, and by the raw text
    otherwise (a body that is not JSON, or JSON that is not an object);
    it returns [None] and sends nothing. *)
Theorem show_response_error (r : response) (success_message : option pystr)
  (w : world) :
  400 <= status_code r ->
  adds (show_response container_str r success_message) w (Ret JNull)
       [st_error (lit "Error " ++ str_int (status_code r) ++ lit ": "
                  ++ error_detail container_str r)] [].
Proof.
  intros Hge. unfold show_response, error_detail.
  replace (status_code r <? 400) with false by (symmetry; apply Z.ltb_ge; exact Hge).
  run_m. destruct (json_result r) as [[] |];
    try (destruct (dict_lookup _ _)); simpl; rewrite ?app_nil_r; reflexivity.
Qed.

End ShowResponse.

Lemma show_response_success_witness :
  status_code (mkResponse 200 [] (Some (JObj [(lit "id", JInt 1);
                                              (lit "first_name", JStr (lit "Ana"))])))
    < 400 /\
  adds (show_response (fun _ => [])
          (mkResponse 200 [] (Some (JObj [(lit "id", JInt 1);
                                          (lit "first_name", JStr (lit "Ana"))])))
          None)
       (mkWorld [] [])
       (Ret (JObj [(lit "id", JInt 1); (lit "first_name", JStr (lit "Ana"))]))
       [st_json (JObj [(lit "id", JInt 1); (lit "first_name", JStr (lit "Ana"))])] [].
Proof.
  split; [simpl; lia |].
  exact (show_response_success (fun _ => [])
           (mkResponse 200 [] (Some (JObj [(lit "id", JInt 1);
                                           (lit "first_name", JStr (lit "Ana"))])))
           None (mkWorld [] []) ltac:(simpl; lia)).
Defined.

Lemma show_response_error_witness :
  400 <= status_code (mkResponse 404 []
                        (Some (JObj [(lit "detail", JStr (lit "User not found"))]))) /\
  adds (show_response (fun _ => [])
          (mkResponse 404 [] (Some (JObj [(lit "detail", JStr (lit "User not found"))])))
          None)
       (mkWorld [] []) (Ret JNull)
       [st_error (lit "Error 404: User not found")] [].
Proof.
  split; [simpl; lia |].
  exact (show_response_error (fun _ => [])
           (mkResponse 404 [] (Some (JObj [(lit "detail", JStr (lit "User not found"))])))
           None (mkWorld [] []) ltac:(simpl; lia)).
Defined.

(** C3 fails as stated: the body ["internal error"] (with its quotes)
    parses as JSON and has no [detail] field, yet the message is the raw
    text and not [Unknown error], since [.get] fails on a JSON string. *)
Lemma show_response_json_string_body_cex :
  let body := [34] ++ lit "internal error" ++ [34] in
  let r := mkResponse 500 body (Some (JStr (lit "internal error"))) in
  json_result r <> None /\
  show_response (fun _ => []) r None (mkWorld [] []) =
    (Ret JNull, mkWorld [st_error (lit "Error 500: " ++ body)] []) /\
  infixb (lit "Unknown error") (lit "Error 500: " ++ body) = false.
Proof. vm_compute. split; [discriminate | split; reflexivity]. Qed.

(* ------------------------------------------------------------------ *)
(** ** Which commands send requests *)

Section Sends.

Variable container_str : json -> pystr.
Variable transport : verb -> pystr -> kwargs -> result.
Variable BASE_URL token_input : pystr.

Lemma sends_ret {A} (a : A) : sends [] (ret a).
Proof. intros w. simpl. now rewrite app_nil_r. Qed.

Lemma sends_emit (x : element) : sends [] (emit x).
Proof. intros w. simpl. now rewrite app_nil_r. Qed.

Lemma sends_raise {A} (e : exn) : sends [] (@raise A e).
Proof. intros w. simpl. now rewrite app_nil_r. Qed.

Lemma sends_bind {A B} (L : list call) (c : M A) (k : A -> M B) :
  sends L c -> (forall a, sends [] (k a)) -> sends L (bind c k).
Proof.
  intros Hc Hk w. unfold bind. specialize (Hc w).
  destruct (c w) as [[a | e] w'] eqn:E; simpl in *.
  - rewrite Hk, Hc. now rewrite app_nil_r.
  - exact Hc.
Qed.

Lemma sends_try {A} (L : list call) (body : M A) (handler : exn -> option (M A)) :
  sends L body -> (forall e h, handler e = Some h -> sends [] h) ->
  sends L (try_except body handler).
Proof.
  intros Hb Hh w. unfold try_except. specialize (Hb w).
  destruct (body w) as [[a | e] w'] eqn:E; simpl in *; [exact Hb |].
  destruct (handler e) as [h |] eqn:Eh; [| exact Hb].
  rewrite (Hh e h Eh), Hb. now rewrite app_nil_r.
Qed.

Lemma sends_resp_json (r : response) : sends [] (resp_json r).
Proof. unfold resp_json. destruct (json_result r); [apply sends_ret | apply sends_raise]. Qed.

Lemma sends_py_get (d : json) (key : pystr) (default : json) : sends [] (py_get d key default).
Proof.
  unfold py_get. destruct d; try apply sends_raise.
  destruct (dict_lookup key kvs); apply sends_ret.
Qed.

Lemma sends_py_len (j : json) : sends [] (py_len j).
Proof. unfold py_len. destruct j; first [apply sends_ret | apply sends_raise]. Qed.

Create HintDb sends_db.
#[local] Hint Resolve sends_ret sends_emit sends_raise sends_resp_json sends_py_get
  sends_py_len : sends_db.

(** Composite commands that send nothing. *)
Ltac no_send :=
  repeat first
    [ progress (auto with sends_db)
    | apply sends_bind; [| intro]
    | apply sends_try; [| let e := fresh in let h := fresh in let E := fresh in
                          intros e h E; cbn beta in E; injection E as <-]
    | match goal with
      | |- sends _ (match ?x with _ => _ end) => destruct x
      end ].

Lemma sends_show_response (r : response) (m : option pystr) :
  sends [] (show_response container_str r m).
Proof. unfold show_response. destruct (status_code r <? 400); no_send. Qed.

#[local] Hint Resolve sends_show_response : sends_db.

Lemma sends_summary_line (data : json) (key prefix : pystr) :
  sends [] (summary_line container_str data key prefix).
Proof. unfold summary_line. no_send. Qed.

Lemma sends_pdf_result (resp : option response) (msg : pystr) :
  sends [] (pdf_result container_str resp msg).
Proof. unfold pdf_result. no_send. Qed.

#[local] Hint Resolve sends_summary_line sends_pdf_result : sends_db.

(** [make_request] on a supported method sends exactly its one call. *)
Lemma sends_make_request (v : verb) (method url : pystr) (kw : kwargs) :
  upper method = method_name v ->
  sends [mkCall v url kw] (make_request transport BASE_URL method url kw).
Proof.
  intros Hup w. rewrite (make_request_supported transport BASE_URL v) by exact Hup.
  destruct (transport v url kw) as [r | e]; [reflexivity |].
  destruct (is_RequestException e); reflexivity.
Qed.

(** Every action whose submission passes validation sends one call: the
    one of the table. *)
Lemma sends_run_action (a : action) :
  (forall f, a = CreateUpdateUser f -> first_name f <> []) ->
  let '(v, path, t, auth) := spec_endpoint a in
  sends [mkCall v (BASE_URL ++ path) (mkKwargs (get_headers token_input auth)
                                              (action_body a) t)]
        (run_action container_str transport BASE_URL token_input a).
Proof.
  intros Hvalid.
  destruct a; cbn [spec_endpoint action_body]; unfold run_action;
    try (apply sends_bind; [apply sends_make_request; reflexivity | intro; no_send]).
  - destruct (nonempty (first_name form)) eqn:Hf.
    + cbn [negb]. apply sends_bind; [apply sends_make_request; reflexivity | intro; no_send].
    + exfalso. apply (Hvalid form eq_refl). destruct (first_name form); [reflexivity | discriminate].
Qed.

Lemma sends_health_check :
  sends [mkCall GET (BASE_URL ++ lit "/health") (mkKwargs (get_headers token_input false) None 5)]
        (health_check transport BASE_URL token_input).
Proof.
  unfold health_check. apply sends_bind; [apply sends_make_request; reflexivity | intro; no_send].
Qed.

End Sends.

(* ------------------------------------------------------------------ *)
(** ** The Create/Update payload *)

Lemma nonempty_true (s : pystr) : nonempty s = true <-> s <> [].
Proof. destruct s; simpl; split; congruence. Qed.

(** Case analysis on which form fields are filled. *)
Ltac form_cases f :=
  destruct f as [fn ln bd bt ci co lo tz];
  unfold build_payload, add_text;
  cbn [first_name last_name birthdate birthtime city country login timezone];
  destruct ln, bd, bt, ci, co, lo, tz.

Lemma payload_head (f : user_form) :
  hd_error (build_payload f) = Some (lit "first_name", JStr (first_name f)).
Proof. form_cases f; reflexivity. Qed.

Lemma payload_distinct (f : user_form) : all_distinct (map fst (build_payload f)) = true.
Proof. form_cases f; vm_compute; reflexivity. Qed.

Lemma payload_keys (f : user_form) :
  let keys := map fst (build_payload f) in
  existsb (pystr_eqb (lit "last_name")) keys = nonempty (last_name f) /\
  existsb (pystr_eqb (lit "birthdate")) keys =
    match birthdate f with Some _ => true | None => false end /\
  existsb (pystr_eqb (lit "birthtime")) keys =
    match birthtime f with Some _ => true | None => false end /\
  existsb (pystr_eqb (lit "city")) keys = nonempty (city f) /\
  existsb (pystr_eqb (lit "country")) keys = nonempty (country f) /\
  existsb (pystr_eqb (lit "login")) keys = nonempty (login f) /\
  existsb (pystr_eqb (lit "timezone")) keys = nonempty (timezone f).
Proof. form_cases f; vm_compute; repeat split. Qed.

Lemma payload_birthdate (f : user_form) (d : date) :
  birthdate f = Some d ->
  dict_lookup (lit "birthdate") (build_payload f) = Some (JStr (strftime_date d)).
Proof. form_cases f; intros E; try discriminate E; injection E as <-; reflexivity. Qed.

Lemma payload_birthtime (f : user_form) (t : time) :
  birthtime f = Some t ->
  dict_lookup (lit "birthtime") (build_payload f) = Some (JStr (strftime_time t)).
Proof. form_cases f; intros E; try discriminate E; injection E as <-; reflexivity. Qed.

(** C6: the payload of a submission starts with [first_name]; each key
    occurs once; each optional key is present exactly when its field is
    filled; a birthdate is sent as [YYYY-MM-DD] (four-digit years, the
    range the date widget offers) and a birth time as [HH:MM]; when the
    first name is non-empty this payload is the JSON body of the one POST;
    a form with only [first_name = "Mara"] gives exactly
    [{"first_name": "Mara"}]. *)
Theorem create_user_payload (container_str : json -> pystr)
  (transport : verb -> pystr -> kwargs -> result) (BASE_URL token_input : pystr)
  (f : user_form) :
  let p := build_payload f in
  let keys := map fst p in
  hd_error p = Some (lit "first_name", JStr (first_name f)) /\
  NoDup keys /\
  (In (lit "last_name") keys <-> last_name f <> []) /\
  (In (lit "birthdate") keys <-> birthdate f <> None) /\
  (In (lit "birthtime") keys <-> birthtime f <> None) /\
  (In (lit "city") keys <-> city f <> []) /\
  (In (lit "country") keys <-> country f <> []) /\
  (In (lit "login") keys <-> login f <> []) /\
  (In (lit "timezone") keys <-> timezone f <> []) /\
  (forall d, birthdate f = Some d ->
     1000 <= year d <= 9999 -> 1 <= month d <= 12 -> 1 <= day d <= 31 ->
     exists s, dict_lookup (lit "birthdate") p = Some (JStr s) /\
               parse_yyyy_mm_dd s = Some (year d, month d, day d)) /\
  (forall t, birthtime f = Some t -> 0 <= hour t <= 23 -> 0 <= minute t <= 59 ->
     exists s, dict_lookup (lit "birthtime") p = Some (JStr s) /\
               parse_hh_mm s = Some (hour t, minute t)) /\
  (first_name f <> [] -> forall w,
     sent (snd (run_action container_str transport BASE_URL token_input
                           (CreateUpdateUser f) w)) =
     sent w ++ [mkCall POST (BASE_URL ++ lit "/users")
                       (mkKwargs (get_headers token_input true) (Some p) 10)]) /\
  build_payload (mkForm (lit "Mara") [] None None [] [] [] []) =
    [(lit "first_name", JStr (lit "Mara"))].
Proof.
  cbv zeta.
  pose proof (payload_keys f) as K; cbv zeta in K.
  destruct K as [K1 [K2 [K3 [K4 [K5 [K6 K7]]]]]].
  rewrite <- !existsb_pystr_In, K1, K2, K3, K4, K5, K6, K7, !nonempty_true.
  split; [apply payload_head |].
  split; [apply all_distinct_NoDup, payload_distinct |].
  split; [tauto |].
  split; [destruct (birthdate f); split; congruence |].
  split; [destruct (birthtime f); split; congruence |].
  do 4 (split; [tauto |]).
  split.
  { intros d Hd Hy Hm Hday. exists (strftime_date d).
    split; [apply payload_birthdate, Hd | apply strftime_date_format; assumption]. }
  split.
  { intros t Ht Hh Hm. exists (strftime_time t).
    split; [apply payload_birthtime, Ht | apply strftime_time_format; assumption]. }
  split; [| reflexivity].
  intros Hf w.
  apply (sends_run_action container_str transport BASE_URL token_input (CreateUpdateUser f)).
  intros f' E. injection E as <-. exact Hf.
Qed.

(** C7: a submission with an empty first name shows [First name is
    required!] and sends nothing: [make_request] is not reached. *)
Theorem create_user_requires_first_name (container_str : json -> pystr)
  (transport : verb -> pystr -> kwargs -> result) (BASE_URL token_input : pystr)
  (f : user_form) (w : world) :
  first_name f = [] ->
  adds (run_action container_str transport BASE_URL token_input (CreateUpdateUser f)) w
       (Ret tt) [st_error (lit "First name is required!")] [].
Proof.
  intros H. unfold adds, run_action. rewrite H. cbn [nonempty negb].
  unfold emit. rewrite app_nil_r. reflexivity.
Qed.

Lemma create_user_requires_first_name_witness :
  first_name (mkForm [] (lit "Doe") None None (lit "Brussels") [] [] []) = [] /\
  adds (run_action (fun _ => []) (fun _ _ _ => Raise TypeError) (lit "http://localhost:8010")
          (lit "secret") (CreateUpdateUser (mkForm [] (lit "Doe") None None
                                                   (lit "Brussels") [] [] [])))
       (mkWorld [] []) (Ret tt) [st_error (lit "First name is required!")] [].
Proof.
  split; [reflexivity |].
  apply create_user_requires_first_name. reflexivity.
Defined.

(* ------------------------------------------------------------------ *)
(** ** The requests of the actions *)

(** C8: every action, once its submission passes validation (a non-empty
    first name for Create/Update), sends exactly one request: the verb,
    the path and query below [BASE_URL], and the timeout of the table;
    the headers are [get_headers] with [require_auth] only for the POST,
    whose body is the payload.  The health check sends one GET of
    [/health] with a 5 s timeout. *)
Theorem actions_follow_endpoint_table (container_str : json -> pystr)
  (transport : verb -> pystr -> kwargs -> result) (BASE_URL token_input : pystr)
  (a : action) (w : world) :
  (forall f, a = CreateUpdateUser f -> first_name f <> []) ->
  (let '(v, path, t, auth) := spec_endpoint a in
   sent (snd (run_action container_str transport BASE_URL token_input a w)) =
   sent w ++ [mkCall v (BASE_URL ++ path)
                     (mkKwargs (get_headers token_input auth) (action_body a) t)]) /\
  sent (snd (health_check transport BASE_URL token_input w)) =
  sent w ++ [mkCall GET (BASE_URL ++ lit "/health")
                    (mkKwargs (get_headers token_input false) None 5)].
Proof.
  intros Hvalid. split.
  - pose proof (sends_run_action container_str transport BASE_URL token_input a Hvalid) as S.
    destruct (spec_endpoint a) as [[[v path] t] auth]. apply S.
  - apply sends_health_check.
Qed.

Lemma actions_follow_endpoint_table_witness :
  (forall f, GenerateCalendar 7 2026 = CreateUpdateUser f -> first_name f <> []) /\
  sent (snd (run_action (fun _ => []) (fun _ _ _ => Raise TypeError)
               (lit "http://localhost:8010") [] (GenerateCalendar 7 2026) (mkWorld [] []))) =
  [mkCall GET (lit "http://localhost:8010/users/7/calendar?year=2026")
          (mkKwargs (get_headers [] false) None 120)].
Proof.
  assert (H : forall f, GenerateCalendar 7 2026 = CreateUpdateUser f -> first_name f <> [])
    by (intros f E; discriminate E).
  split; [exact H |].
  exact (proj1 (actions_follow_endpoint_table (fun _ => []) (fun _ _ _ => Raise TypeError)
                  (lit "http://localhost:8010") [] (GenerateCalendar 7 2026)
                  (mkWorld [] []) H)).
Defined.

(* ------------------------------------------------------------------ *)
(** ** Error statuses on the health check and the PDF actions *)

(** C9 (failing input): a backend answering the health check or the
    booklet request with status 500 gets nothing rendered at all: [if
    resp:] is false for such a [Response], so neither the health-failure
    message nor [show_response] is reached. *)
Theorem error_status_renders_nothing :
  let B := lit "http://localhost:8010" in
  let answer := fun (_ : verb) (_ : pystr) (_ : kwargs) =>
                  Resp (mkResponse 500 (lit "Internal Server Error") None) in
  health_check answer B [] (mkWorld [] []) =
    (Ret tt, mkWorld [] [mkCall GET (B ++ lit "/health")
                                (mkKwargs (get_headers [] false) None 5)]) /\
  run_action (fun _ => []) answer B [] (GenerateBooklet 1) (mkWorld [] []) =
    (Ret tt, mkWorld [] [mkCall GET (B ++ lit "/users/1/booklet")
                                (mkKwargs (get_headers [] false) None 120)]) /\
  health_check (fun _ _ _ => Resp (mkResponse 204 [] None)) B [] (mkWorld [] []) =
    (Ret tt, mkWorld [sidebar_error (cross_mark ++ lit " Backend health check failed")]
                     [mkCall GET (B ++ lit "/health")
                             (mkKwargs (get_headers [] false) None 5)]).
Proof. split; [| split]; vm_compute; reflexivity. Qed.

(* ------------------------------------------------------------------ *)
(** ** Further properties of the helpers and the actions *)

Lemma bind_ret_eq {A B} (c : M A) (k : A -> M B) (w w' : world) (a : A) :
  c w = (Ret a, w') -> bind c k w = k a w'.
Proof. intros E. unfold bind. now rewrite E. Qed.

Lemma bind_exc_eq {A B} (c : M A) (k : A -> M B) (w w' : world) (e : exn) :
  c w = (Exc e, w') -> bind c k w = (Exc e, w').
Proof. intros E. unfold bind. now rewrite E. Qed.

Lemma make_request_resp_eq (transport : verb -> pystr -> kwargs -> result)
  (BASE_URL : pystr) (v : verb) (method url : pystr) (kw : kwargs) (r : response)
  (w : world) :
  upper method = method_name v -> transport v url kw = Resp r ->
  make_request transport BASE_URL method url kw w =
  (Ret (Some r), mkWorld (shown w) (sent w ++ [mkCall v url kw])).
Proof.
  intros Hup Htr. rewrite (make_request_supported transport BASE_URL v) by exact Hup.
  now rewrite Htr.
Qed.

Lemma make_request_fail_eq (transport : verb -> pystr -> kwargs -> result)
  (BASE_URL : pystr) (v : verb) (method url : pystr) (kw : kwargs) (e : exn)
  (w : world) :
  upper method = method_name v -> transport v url kw = Raise e ->
  is_RequestException e = true ->
  make_request transport BASE_URL method url kw w =
  (Ret None, mkWorld (shown w ++ [st_error (failure_message BASE_URL e)])
                     (sent w ++ [mkCall v url kw])).
Proof.
  intros Hup Htr He. rewrite (make_request_supported transport BASE_URL v) by exact Hup.
  now rewrite Htr, He.
Qed.

Lemma show_response_parsed (container_str : json -> pystr) (r : response)
  (m : option pystr) (w : world) (data : json) :
  status_code r < 400 -> json_result r = Some data ->
  show_response container_str r m w =
  (Ret data, mkWorld (shown w ++ banner m ++ [st_json data]) (sent w)).
Proof.
  intros Hlt Hj. unfold show_response.
  replace (status_code r <? 400) with true by (symmetry; apply Z.ltb_lt; exact Hlt).
  unfold banner. run_m. rewrite Hj.
  destruct m as [m |]; [destruct (nonempty m) |]; simpl; rewrite <- ?app_assoc; reflexivity.
Qed.

Lemma resp_bool_lt400 (r : response) : status_code r < 400 -> resp_bool r = true.
Proof.
  intros H. unfold resp_bool. replace (400 <=? status_code r) with false
    by (symmetry; apply Z.leb_gt; lia). reflexivity.
Qed.

Lemma resp_bool_error (r : response) :
  400 <= status_code r < 600 -> resp_bool r = false.
Proof.
  intros H. unfold resp_bool.
  replace (400 <=? status_code r) with true by (symmetry; apply Z.leb_le; lia).
  replace (status_code r <? 600) with true by (symmetry; apply Z.ltb_lt; lia).
  reflexivity.
Qed.

(** X1: on a supported method, a response is handed back unchanged: no
    message is shown and exactly the one call is sent, whatever the
    status. *)
Theorem make_request_passes_response
  (transport : verb -> pystr -> kwargs -> result) (BASE_URL : pystr) (v : verb)
  (method url : pystr) (kw : kwargs) (r : response) (w : world) :
  upper method = method_name v -> transport v url kw = Resp r ->
  adds (make_request transport BASE_URL method url kw) w (Ret (Some r)) []
       [mkCall v url kw].
Proof.
  intros Hup Htr. unfold adds. rewrite (make_request_resp_eq transport BASE_URL v method url kw r) by assumption.
  now rewrite app_nil_r.
Qed.

Lemma make_request_passes_response_witness :
  upper (lit "Post") = method_name POST /\
  (fun (_ : verb) (_ : pystr) (_ : kwargs) => Resp (mkResponse 422 [] None)) POST (lit "u")
    (mkKwargs [] None 10) = Resp (mkResponse 422 [] None) /\
  adds (make_request (fun _ _ _ => Resp (mkResponse 422 [] None)) [] (lit "Post") (lit "u")
          (mkKwargs [] None 10))
       (mkWorld [] []) (Ret (Some (mkResponse 422 [] None))) []
       [mkCall POST (lit "u") (mkKwargs [] None 10)].
Proof.
  split; [reflexivity | split; [reflexivity |]].
  apply make_request_passes_response; reflexivity.
Defined.

(** X2: an exception of the HTTP call that is not a [requests] exception
    (a [TypeError] from bad keyword arguments, say) is not caught by
    [make_request]: it propagates, after the call was attempted and with
    nothing shown. *)
Theorem make_request_propagates_other_exceptions
  (transport : verb -> pystr -> kwargs -> result) (BASE_URL : pystr) (v : verb)
  (method url : pystr) (kw : kwargs) (e : exn) (w : world) :
  upper method = method_name v -> transport v url kw = Raise e ->
  is_RequestException e = false ->
  adds (make_request transport BASE_URL method url kw) w (Exc e) [] [mkCall v url kw].
Proof.
  intros Hup Htr He. unfold adds.
  rewrite (make_request_supported transport BASE_URL v) by exact Hup.
  rewrite Htr, He. now rewrite app_nil_r.
Qed.

Lemma make_request_propagates_other_exceptions_witness :
  upper (lit "delete") = method_name DELETE /\
  (fun (_ : verb) (_ : pystr) (_ : kwargs) => Raise TypeError) DELETE (lit "u")
    (mkKwargs [] None 10) = Raise TypeError /\
  is_RequestException TypeError = false /\
  adds (make_request (fun _ _ _ => Raise TypeError) [] (lit "delete") (lit "u")
          (mkKwargs [] None 10))
       (mkWorld [] []) (Exc TypeError) [] [mkCall DELETE (lit "u") (mkKwargs [] None 10)].
Proof.
  split; [reflexivity | split; [reflexivity | split; [reflexivity |]]].
  apply make_request_propagates_other_exceptions; reflexivity.
Defined.

(** The call to [make_request] at the head of an action, on a transport
    that always answers [res]. *)
Ltac request_answers Htr :=
  erewrite bind_ret_eq
    by first
         [ apply (make_request_resp_eq _ _ GET); [reflexivity | apply Htr]
         | apply (make_request_resp_eq _ _ POST); [reflexivity | apply Htr]
         | apply (make_request_fail_eq _ _ GET); [reflexivity | apply Htr | assumption]
         | apply (make_request_fail_eq _ _ POST); [reflexivity | apply Htr | assumption] ].

(** X3: with a backend that cannot be reached (every HTTP call raises the
    same [requests] exception), every action whose submission passes
    validation, and the health check, ends normally: it shows exactly the
    one failure message of [make_request] and sends its one call. *)
Theorem actions_backend_down (container_str : json -> pystr)
  (transport : verb -> pystr -> kwargs -> result) (BASE_URL token_input : pystr)
  (e : exn) (a : action) (w : world) :
  (forall v u kw, transport v u kw = Raise e) ->
  is_RequestException e = true ->
  (forall f, a = CreateUpdateUser f -> first_name f <> []) ->
  (let '(v, path, t, auth) := spec_endpoint a in
   adds (run_action container_str transport BASE_URL token_input a) w (Ret tt)
        [st_error (failure_message BASE_URL e)]
        [mkCall v (BASE_URL ++ path)
                (mkKwargs (get_headers token_input auth) (action_body a) t)]) /\
  adds (health_check transport BASE_URL token_input) w (Ret tt)
       [st_error (failure_message BASE_URL e)]
       [mkCall GET (BASE_URL ++ lit "/health") (mkKwargs (get_headers token_input false) None 5)].
Proof.
  intros Htr He Hvalid. split.
  - destruct a; cbn [spec_endpoint action_body]; unfold adds, run_action;
      try (destruct (nonempty (first_name form)) eqn:Hf;
           [cbn [negb] | exfalso; apply (Hvalid form eq_refl);
                          destruct (first_name form); [reflexivity | discriminate Hf]]);
      request_answers Htr; reflexivity.
  - unfold adds, health_check. request_answers Htr. reflexivity.
Qed.

Lemma actions_backend_down_witness :
  (forall v u kw, (fun (_ : verb) (_ : pystr) (_ : kwargs) =>
                     Raise (RequestsExc ConnectionError (lit "refused"))) v u kw =
                  Raise (RequestsExc ConnectionError (lit "refused"))) /\
  is_RequestException (RequestsExc ConnectionError (lit "refused")) = true /\
  (forall f, GetBigThree 4 = CreateUpdateUser f -> first_name f <> []) /\
  adds (run_action (fun _ => []) (fun _ _ _ => Raise (RequestsExc ConnectionError (lit "refused")))
          (lit "http://localhost:8010") [] (GetBigThree 4))
       (mkWorld [] []) (Ret tt)
       [st_error (connection_failed_msg (lit "http://localhost:8010"))]
       [mkCall GET (lit "http://localhost:8010/users/4/big-three")
               (mkKwargs (get_headers [] false) None 30)].
Proof.
  assert (H : forall f, GetBigThree 4 = CreateUpdateUser f -> first_name f <> [])
    by (intros f E; discriminate E).
  split; [reflexivity | split; [reflexivity | split; [exact H |]]].
  exact (proj1 (actions_backend_down (fun _ => [])
                  (fun _ _ _ => Raise (RequestsExc ConnectionError (lit "refused")))
                  (lit "http://localhost:8010") [] (RequestsExc ConnectionError (lit "refused"))
                  (GetBigThree 4) (mkWorld [] []) (fun _ _ _ => eq_refl) eq_refl H)).
Defined.

(** X4: when the backend answers with a status from 400 to 599, no action
    and not the health check renders anything: [if resp:] is false for
    such a [Response], so the response is dropped silently; the run ends
    normally after its one call. *)
Theorem actions_drop_error_responses (container_str : json -> pystr)
  (transport : verb -> pystr -> kwargs -> result) (BASE_URL token_input : pystr)
  (r : response) (a : action) (w : world) :
  (forall v u kw, transport v u kw = Resp r) ->
  400 <= status_code r < 600 ->
  (forall f, a = CreateUpdateUser f -> first_name f <> []) ->
  (let '(v, path, t, auth) := spec_endpoint a in
   adds (run_action container_str transport BASE_URL token_input a) w (Ret tt) []
        [mkCall v (BASE_URL ++ path)
                (mkKwargs (get_headers token_input auth) (action_body a) t)]) /\
  adds (health_check transport BASE_URL token_input) w (Ret tt) []
       [mkCall GET (BASE_URL ++ lit "/health") (mkKwargs (get_headers token_input false) None 5)].
Proof.
  intros Htr Hs Hvalid.
  pose proof (resp_bool_error r Hs) as Hb. split.
  - destruct a; cbn [spec_endpoint action_body]; unfold adds, run_action;
      try (destruct (nonempty (first_name form)) eqn:Hf;
           [cbn [negb] | exfalso; apply (Hvalid form eq_refl);
                          destruct (first_name form); [reflexivity | discriminate Hf]]);
      request_answers Htr; unfold pdf_result; cbn beta iota; rewrite Hb;
      rewrite ?app_nil_r; reflexivity.
  - unfold adds, health_check. request_answers Htr. cbn beta iota. rewrite Hb.
    rewrite app_nil_r. reflexivity.
Qed.

Lemma actions_drop_error_responses_witness :
  (forall v u kw, (fun (_ : verb) (_ : pystr) (_ : kwargs) =>
                     Resp (mkResponse 404 (lit "not found") None)) v u kw =
                  Resp (mkResponse 404 (lit "not found") None)) /\
  400 <= status_code (mkResponse 404 (lit "not found") None) < 600 /\
  (forall f, GetUserByID 9 = CreateUpdateUser f -> first_name f <> []) /\
  adds (run_action (fun _ => []) (fun _ _ _ => Resp (mkResponse 404 (lit "not found") None))
          (lit "http://localhost:8010") [] (GetUserByID 9))
       (mkWorld [] []) (Ret tt) []
       [mkCall GET (lit "http://localhost:8010" ++ lit "/users/" ++ str_int 9)
               (mkKwargs (get_headers [] false) None 10)].
Proof.
  assert (H : forall f, GetUserByID 9 = CreateUpdateUser f -> first_name f <> [])
    by (intros f E; discriminate E).
  split; [reflexivity | split; [simpl; lia | split; [exact H |]]].
  exact (proj1 (actions_drop_error_responses (fun _ => [])
                  (fun _ _ _ => Resp (mkResponse 404 (lit "not found") None))
                  (lit "http://localhost:8010") [] (mkResponse 404 (lit "not found") None)
                  (GetUserByID 9) (mkWorld [] []) (fun _ _ _ => eq_refl)
                  ltac:(simpl; lia) H)).
Defined.

Lemma show_response_unparsed (container_str : json -> pystr) (r : response)
  (m : option pystr) (w : world) :
  status_code r < 400 -> json_result r = None ->
  show_response container_str r m w =
  (Ret JNull, mkWorld (shown w ++ banner m
                       ++ [st_text_area (lit "Raw response (text)") (text r)]) (sent w)).
Proof.
  intros Hlt Hj. unfold show_response.
  replace (status_code r <? 400) with true by (symmetry; apply Z.ltb_lt; exact Hlt).
  unfold banner. run_m. rewrite Hj.
  destruct m as [m |]; [destruct (nonempty m) |]; simpl; rewrite <- ?app_assoc; reflexivity.
Qed.

Lemma show_response_error_eq (container_str : json -> pystr) (r : response)
  (m : option pystr) (w : world) :
  400 <= status_code r ->
  show_response container_str r m w =
  (Ret JNull, mkWorld (shown w ++ [st_error (lit "Error " ++ str_int (status_code r)
                                             ++ lit ": " ++ error_detail container_str r)])
                      (sent w)).
Proof.
  intros Hge. unfold show_response.
  replace (status_code r <? 400) with false by (symmetry; apply Z.ltb_ge; exact Hge).
  unfold error_detail. run_m.
  destruct (json_result r) as [[| | | | | | kvs] |]; try reflexivity.
  destruct (dict_lookup (lit "detail") kvs); reflexivity.
Qed.

Ltac finish_world := cbn beta iota; cbn [shown sent]; rewrite <- ?app_assoc; reflexivity.

(** X5: View All Users on a successful response whose body is a JSON
    list: the list is shown, followed, when it is not empty, by the line
    "Found n user(s)" with n its length. *)
Theorem view_all_users_list (container_str : json -> pystr)
  (transport : verb -> pystr -> kwargs -> result) (BASE_URL token_input : pystr)
  (r : response) (l : list json) (w : world) :
  (forall v u kw, transport v u kw = Resp r) ->
  status_code r < 400 -> json_result r = Some (JList l) ->
  adds (run_action container_str transport BASE_URL token_input ViewAllUsers) w (Ret tt)
       (st_json (JList l)
        :: match l with
           | [] => []
           | _ => [st_info (lit "Found " ++ str_int (Z.of_nat (length l)) ++ lit " user(s)")]
           end)
       [mkCall GET (BASE_URL ++ lit "/users") (plain_get token_input 10)].
Proof.
  intros Htr Hlt Hj. unfold adds, run_action. request_answers Htr. cbn beta iota.
  rewrite (resp_bool_lt400 r Hlt).
  erewrite bind_ret_eq by (apply show_response_parsed; eassumption).
  destruct l as [| x l]; cbn [truthy banner shown sent app];
    unfold py_len, bind, emit, ret; finish_world.
Qed.

Lemma view_all_users_list_witness :
  (forall v u kw, (fun (_ : verb) (_ : pystr) (_ : kwargs) =>
                     Resp (mkResponse 200 [] (Some (JList [JInt 1; JInt 2])))) v u kw =
                  Resp (mkResponse 200 [] (Some (JList [JInt 1; JInt 2])))) /\
  status_code (mkResponse 200 [] (Some (JList [JInt 1; JInt 2]))) < 400 /\
  adds (run_action (fun _ => []) (fun _ _ _ => Resp (mkResponse 200 [] (Some (JList [JInt 1; JInt 2]))))
          (lit "http://b") [] ViewAllUsers)
       (mkWorld [] []) (Ret tt)
       [st_json (JList [JInt 1; JInt 2]); st_info (lit "Found 2 user(s)")]
       [mkCall GET (lit "http://b" ++ lit "/users") (plain_get [] 10)].
Proof.
  split; [reflexivity | split; [simpl; lia |]].
  apply (view_all_users_list (fun _ => []) (fun _ _ _ => Resp (mkResponse 200 [] (Some (JList [JInt 1; JInt 2]))))
           (lit "http://b") [] (mkResponse 200 [] (Some (JList [JInt 1; JInt 2])))
           [JInt 1; JInt 2] (mkWorld [] [])); [reflexivity | simpl; lia | reflexivity].
Defined.

(** X6: View All Users on a successful response whose body is a non-empty
    JSON object (an error object returned with a 2xx status, say): the
    object is shown and "Found n user(s)" counts its distinct keys. *)
Theorem view_all_users_object (container_str : json -> pystr)
  (transport : verb -> pystr -> kwargs -> result) (BASE_URL token_input : pystr)
  (r : response) (kvs : list (pystr * json)) (w : world) :
  (forall v u kw, transport v u kw = Resp r) ->
  status_code r < 400 -> json_result r = Some (JObj kvs) -> kvs <> [] ->
  adds (run_action container_str transport BASE_URL token_input ViewAllUsers) w (Ret tt)
       [st_json (JObj kvs);
        st_info (lit "Found " ++ str_int (Z.of_nat (length (distinct_keys [] kvs)))
                 ++ lit " user(s)")]
       [mkCall GET (BASE_URL ++ lit "/users") (plain_get token_input 10)].
Proof.
  intros Htr Hlt Hj Hne. unfold adds, run_action. request_answers Htr. cbn beta iota.
  rewrite (resp_bool_lt400 r Hlt).
  erewrite bind_ret_eq by (apply show_response_parsed; eassumption).
  destruct kvs as [| kv kvs]; [congruence |].
  cbn [truthy banner shown sent app]; unfold py_len, bind, emit, ret; finish_world.
Qed.

Lemma view_all_users_object_witness :
  (forall v u kw, (fun (_ : verb) (_ : pystr) (_ : kwargs) =>
                     Resp (mkResponse 200 [] (Some (JObj [(lit "detail", JStr (lit "x"))])))) v u kw =
                  Resp (mkResponse 200 [] (Some (JObj [(lit "detail", JStr (lit "x"))])))) /\
  status_code (mkResponse 200 [] (Some (JObj [(lit "detail", JStr (lit "x"))]))) < 400 /\
  [(lit "detail", JStr (lit "x"))] <> [] /\
  adds (run_action (fun _ => [])
          (fun _ _ _ => Resp (mkResponse 200 [] (Some (JObj [(lit "detail", JStr (lit "x"))]))))
          (lit "http://b") [] ViewAllUsers)
       (mkWorld [] []) (Ret tt)
       [st_json (JObj [(lit "detail", JStr (lit "x"))]); st_info (lit "Found 1 user(s)")]
       [mkCall GET (lit "http://b" ++ lit "/users") (plain_get [] 10)].
Proof.
  split; [reflexivity | split; [simpl; lia | split; [discriminate |]]].
  apply (view_all_users_object (fun _ => [])
           (fun _ _ _ => Resp (mkResponse 200 [] (Some (JObj [(lit "detail", JStr (lit "x"))]))))
           (lit "http://b") [] (mkResponse 200 [] (Some (JObj [(lit "detail", JStr (lit "x"))])))
           [(lit "detail", JStr (lit "x"))] (mkWorld [] []));
    [reflexivity | simpl; lia | reflexivity | discriminate].
Defined.

(** X7: View All Users on a successful response whose body is a truthy
    JSON scalar (true, a non-zero number): after the value is shown,
    [len(data)] raises a [TypeError] that nothing catches. *)
Theorem view_all_users_scalar_raises (container_str : json -> pystr)
  (transport : verb -> pystr -> kwargs -> result) (BASE_URL token_input : pystr)
  (r : response) (j : json) (w : world) :
  (forall v u kw, transport v u kw = Resp r) ->
  status_code r < 400 -> json_result r = Some j -> truthy j = true ->
  (forall s, j <> JStr s) -> (forall l, j <> JList l) -> (forall kvs, j <> JObj kvs) ->
  adds (run_action container_str transport BASE_URL token_input ViewAllUsers) w (Exc TypeError)
       [st_json j]
       [mkCall GET (BASE_URL ++ lit "/users") (plain_get token_input 10)].
Proof.
  intros Htr Hlt Hj Ht Hs Hl Ho. unfold adds, run_action. request_answers Htr. cbn beta iota.
  rewrite (resp_bool_lt400 r Hlt).
  erewrite bind_ret_eq by (apply show_response_parsed; eassumption).
  rewrite Ht. cbn [banner shown sent app].
  destruct j as [| b | z | f | s | l | kvs];
    [discriminate Ht | | | | exfalso; exact (Hs s eq_refl) | exfalso; exact (Hl l eq_refl)
    | exfalso; exact (Ho kvs eq_refl)];
    unfold py_len, bind, raise; finish_world.
Qed.

Lemma view_all_users_scalar_raises_witness :
  (forall v u kw, (fun (_ : verb) (_ : pystr) (_ : kwargs) =>
                     Resp (mkResponse 200 [] (Some (JInt 3)))) v u kw =
                  Resp (mkResponse 200 [] (Some (JInt 3)))) /\
  status_code (mkResponse 200 [] (Some (JInt 3))) < 400 /\
  truthy (JInt 3) = true /\
  adds (run_action (fun _ => []) (fun _ _ _ => Resp (mkResponse 200 [] (Some (JInt 3))))
          (lit "http://b") [] ViewAllUsers)
       (mkWorld [] []) (Exc TypeError) [st_json (JInt 3)]
       [mkCall GET (lit "http://b" ++ lit "/users") (plain_get [] 10)].
Proof.
  split; [reflexivity | split; [simpl; lia | split; [reflexivity |]]].
  apply (view_all_users_scalar_raises (fun _ => [])
           (fun _ _ _ => Resp (mkResponse 200 [] (Some (JInt 3))))
           (lit "http://b") [] (mkResponse 200 [] (Some (JInt 3))) (JInt 3) (mkWorld [] []));
    [reflexivity | simpl; lia | reflexivity | reflexivity | discriminate | discriminate
    | discriminate].
Defined.

Lemma resp_bool_ge600 (r : response) : 600 <= status_code r -> resp_bool r = true.
Proof.
  intros H. unfold resp_bool.
  replace (status_code r <? 600) with false by (symmetry; apply Z.ltb_ge; lia).
  now rewrite andb_false_r.
Qed.

Lemma summary_line_dict (container_str : json -> pystr) (kvs : list (pystr * json))
  (key prefix : pystr) (entry : list (pystr * json)) (w : world) :
  dict_lookup key kvs = Some (JObj entry) -> entry <> [] ->
  summary_line container_str (JObj kvs) key prefix w =
  (Ret tt, mkWorld (shown w ++ [planet_line container_str prefix entry]) (sent w)).
Proof.
  intros Hk Hne. unfold summary_line, planet_line, get_or. run_m. rewrite Hk.
  destruct entry as [| kv entry]; [congruence |]. cbn [truthy].
  destruct (dict_lookup (lit "sign") (kv :: entry));
    destruct (dict_lookup (lit "degree") (kv :: entry)); reflexivity.
Qed.

Lemma summary_line_not_dict (container_str : json -> pystr) (kvs : list (pystr * json))
  (key prefix : pystr) (v : json) (w : world) :
  dict_lookup key kvs = Some v -> truthy v = true -> (forall e, v <> JObj e) ->
  summary_line container_str (JObj kvs) key prefix w = (Exc AttributeError, w).
Proof.
  intros Hk Ht Hv. unfold summary_line. run_m. rewrite Hk, Ht.
  destruct v; try reflexivity. exfalso; exact (Hv kvs0 eq_refl).
Qed.

(** X8: Get Big Three on a successful response whose body is truthy but
    not a JSON object (a non-empty list, say): the body and the summary
    heading are shown, then [data.get("Sun")] raises an [AttributeError]
    that nothing catches. *)
Theorem big_three_non_object_raises (container_str : json -> pystr)
  (transport : verb -> pystr -> kwargs -> result) (BASE_URL token_input : pystr)
  (uid : Z) (r : response) (j : json) (w : world) :
  (forall v u kw, transport v u kw = Resp r) ->
  status_code r < 400 -> json_result r = Some j -> truthy j = true ->
  (forall kvs, j <> JObj kvs) ->
  adds (run_action container_str transport BASE_URL token_input (GetBigThree uid)) w
       (Exc AttributeError)
       [st_json j; st_markdown (lit "### Astrology Summary")]
       [mkCall GET (BASE_URL ++ lit "/users/" ++ str_int uid ++ lit "/big-three")
               (plain_get token_input 30)].
Proof.
  intros Htr Hlt Hj Ht Ho. unfold adds, run_action. request_answers Htr. cbn beta iota.
  rewrite (resp_bool_lt400 r Hlt).
  erewrite bind_ret_eq by (apply show_response_parsed; eassumption).
  rewrite Ht. erewrite bind_ret_eq by reflexivity.
  unfold summary_line, py_get, bind, raise.
  destruct j; try (exfalso; exact (Ho kvs eq_refl)); finish_world.
Qed.

Lemma big_three_non_object_raises_witness :
  (forall v u kw, (fun (_ : verb) (_ : pystr) (_ : kwargs) =>
                     Resp (mkResponse 200 [] (Some (JList [JNull])))) v u kw =
                  Resp (mkResponse 200 [] (Some (JList [JNull])))) /\
  status_code (mkResponse 200 [] (Some (JList [JNull]))) < 400 /\
  truthy (JList [JNull]) = true /\
  adds (run_action (fun _ => []) (fun _ _ _ => Resp (mkResponse 200 [] (Some (JList [JNull]))))
          (lit "http://b") [] (GetBigThree 1))
       (mkWorld [] []) (Exc AttributeError)
       [st_json (JList [JNull]); st_markdown (lit "### Astrology Summary")]
       [mkCall GET (lit "http://b" ++ lit "/users/" ++ str_int 1 ++ lit "/big-three")
               (plain_get [] 30)].
Proof.
  split; [reflexivity | split; [simpl; lia | split; [reflexivity |]]].
  apply (big_three_non_object_raises (fun _ => [])
           (fun _ _ _ => Resp (mkResponse 200 [] (Some (JList [JNull]))))
           (lit "http://b") [] 1 (mkResponse 200 [] (Some (JList [JNull]))) (JList [JNull])
           (mkWorld [] []));
    [reflexivity | simpl; lia | reflexivity | reflexivity | discriminate].
Defined.

(** X9: Get Big Three on a successful JSON object whose "Sun" entry is
    truthy but not an object (["Sun": "Aries"], say): the body and the
    heading are shown, and [data['Sun'].get('sign', 'N/A')] raises an
    [AttributeError] before any summary line is written. *)
Theorem big_three_flat_sun_raises (container_str : json -> pystr)
  (transport : verb -> pystr -> kwargs -> result) (BASE_URL token_input : pystr)
  (uid : Z) (r : response) (kvs : list (pystr * json)) (sun : json) (w : world) :
  (forall v u kw, transport v u kw = Resp r) ->
  status_code r < 400 -> json_result r = Some (JObj kvs) ->
  dict_lookup (lit "Sun") kvs = Some sun -> truthy sun = true -> (forall e, sun <> JObj e) ->
  adds (run_action container_str transport BASE_URL token_input (GetBigThree uid)) w
       (Exc AttributeError)
       [st_json (JObj kvs); st_markdown (lit "### Astrology Summary")]
       [mkCall GET (BASE_URL ++ lit "/users/" ++ str_int uid ++ lit "/big-three")
               (plain_get token_input 30)].
Proof.
  intros Htr Hlt Hj Hk Ht Hv. unfold adds, run_action. request_answers Htr. cbn beta iota.
  rewrite (resp_bool_lt400 r Hlt).
  erewrite bind_ret_eq by (apply show_response_parsed; eassumption).
  destruct kvs as [| kv kvs]; [discriminate Hk |]. cbn [truthy].
  erewrite bind_ret_eq by reflexivity.
  erewrite bind_exc_eq by (eapply summary_line_not_dict; eassumption).
  finish_world.
Qed.

Lemma big_three_flat_sun_raises_witness :
  (forall v u kw, (fun (_ : verb) (_ : pystr) (_ : kwargs) =>
                     Resp (mkResponse 200 [] (Some (JObj [(lit "Sun", JStr (lit "Aries"))])))) v u kw =
                  Resp (mkResponse 200 [] (Some (JObj [(lit "Sun", JStr (lit "Aries"))])))) /\
  status_code (mkResponse 200 [] (Some (JObj [(lit "Sun", JStr (lit "Aries"))]))) < 400 /\
  dict_lookup (lit "Sun") [(lit "Sun", JStr (lit "Aries"))] = Some (JStr (lit "Aries")) /\
  truthy (JStr (lit "Aries")) = true /\
  adds (run_action (fun _ => [])
          (fun _ _ _ => Resp (mkResponse 200 [] (Some (JObj [(lit "Sun", JStr (lit "Aries"))]))))
          (lit "http://b") [] (GetBigThree 1))
       (mkWorld [] []) (Exc AttributeError)
       [st_json (JObj [(lit "Sun", JStr (lit "Aries"))]); st_markdown (lit "### Astrology Summary")]
       [mkCall GET (lit "http://b" ++ lit "/users/" ++ str_int 1 ++ lit "/big-three")
               (plain_get [] 30)].
Proof.
  split; [reflexivity | split; [simpl; lia | split; [reflexivity | split; [reflexivity |]]]].
  apply (big_three_flat_sun_raises (fun _ => [])
           (fun _ _ _ => Resp (mkResponse 200 [] (Some (JObj [(lit "Sun", JStr (lit "Aries"))]))))
           (lit "http://b") [] 1 (mkResponse 200 [] (Some (JObj [(lit "Sun", JStr (lit "Aries"))])))
           [(lit "Sun", JStr (lit "Aries"))] (JStr (lit "Aries")) (mkWorld [] []));
    [reflexivity | simpl; lia | reflexivity | reflexivity | reflexivity | discriminate].
Defined.

(** X10: Get Big Three on a successful JSON object whose "Sun", "Moon"
    and "Asc" entries are non-empty objects: the body, the heading and
    exactly three summary lines are shown, in the order Sun, Moon,
    Ascendant, each with the entry's sign (default "N/A") and degree
    (default empty) followed by the degree sign. *)
Theorem big_three_summary (container_str : json -> pystr)
  (transport : verb -> pystr -> kwargs -> result) (BASE_URL token_input : pystr)
  (uid : Z) (r : response) (kvs sun moon asc : list (pystr * json)) (w : world) :
  (forall v u kw, transport v u kw = Resp r) ->
  status_code r < 400 -> json_result r = Some (JObj kvs) ->
  dict_lookup (lit "Sun") kvs = Some (JObj sun) -> sun <> [] ->
  dict_lookup (lit "Moon") kvs = Some (JObj moon) -> moon <> [] ->
  dict_lookup (lit "Asc") kvs = Some (JObj asc) -> asc <> [] ->
  adds (run_action container_str transport BASE_URL token_input (GetBigThree uid)) w (Ret tt)
       [st_json (JObj kvs); st_markdown (lit "### Astrology Summary");
        planet_line container_str (sun_sign ++ lit " **Sun**: ") sun;
        planet_line container_str (moon_sign ++ lit " **Moon**: ") moon;
        planet_line container_str (up_arrow ++ lit " **Ascendant**: ") asc]
       [mkCall GET (BASE_URL ++ lit "/users/" ++ str_int uid ++ lit "/big-three")
               (plain_get token_input 30)].
Proof.
  intros Htr Hlt Hj Hs Hs' Hm Hm' Ha Ha'. unfold adds, run_action. request_answers Htr.
  cbn beta iota. rewrite (resp_bool_lt400 r Hlt).
  erewrite bind_ret_eq by (apply show_response_parsed; eassumption).
  destruct kvs as [| kv kvs]; [discriminate Hs |]. cbn [truthy].
  erewrite bind_ret_eq by reflexivity.
  erewrite bind_ret_eq by (apply summary_line_dict; eassumption).
  erewrite bind_ret_eq by (apply summary_line_dict; eassumption).
  rewrite (summary_line_dict _ _ _ _ asc) by assumption.
  finish_world.
Qed.

Lemma big_three_summary_witness :
  let e := JObj [(lit "sign", JStr (lit "Leo")); (lit "degree", JInt 12)] in
  let body := [(lit "Sun", e); (lit "Moon", e); (lit "Asc", e)] in
  let resp := mkResponse 200 [] (Some (JObj body)) in
  (forall v u kw, (fun (_ : verb) (_ : pystr) (_ : kwargs) => Resp resp) v u kw = Resp resp) /\
  status_code resp < 400 /\
  adds (run_action (fun _ => []) (fun _ _ _ => Resp resp) (lit "http://b") [] (GetBigThree 1))
       (mkWorld [] []) (Ret tt)
       [st_json (JObj body); st_markdown (lit "### Astrology Summary");
        st_write (sun_sign ++ lit " **Sun**: Leo 12" ++ degree_sign);
        st_write (moon_sign ++ lit " **Moon**: Leo 12" ++ degree_sign);
        st_write (up_arrow ++ lit " **Ascendant**: Leo 12" ++ degree_sign)]
       [mkCall GET (lit "http://b" ++ lit "/users/" ++ str_int 1 ++ lit "/big-three")
               (plain_get [] 30)].
Proof.
  intros e body resp.
  split; [reflexivity | split; [simpl; lia |]].
  apply (big_three_summary (fun _ => []) (fun _ _ _ => Resp resp) (lit "http://b") [] 1 resp
           body [(lit "sign", JStr (lit "Leo")); (lit "degree", JInt 12)]
           [(lit "sign", JStr (lit "Leo")); (lit "degree", JInt 12)]
           [(lit "sign", JStr (lit "Leo")); (lit "degree", JInt 12)] (mkWorld [] []));
    first [reflexivity | simpl; lia | discriminate].
Defined.

(** X11: the health check on a 200 response reports the backend healthy
    in the sidebar and shows the parsed body there; a body that is not
    JSON is swallowed by the bare [except]: the run still ends normally
    with only the healthy message. *)
Theorem health_check_ok (transport : verb -> pystr -> kwargs -> result)
  (BASE_URL token_input : pystr) (r : response) (w : world) :
  (forall v u kw, transport v u kw = Resp r) -> status_code r = 200 ->
  adds (health_check transport BASE_URL token_input) w (Ret tt)
       (sidebar_success (check_mark ++ lit " Backend is healthy!")
        :: match json_result r with
           | Some j => [sidebar_json j]
           | None => []
           end)
       [mkCall GET (BASE_URL ++ lit "/health") (plain_get token_input 5)].
Proof.
  intros Htr H200. unfold adds, health_check. request_answers Htr. cbn beta iota.
  rewrite (resp_bool_lt400 r) by lia.
  replace (status_code r =? 200) with true by (symmetry; apply Z.eqb_eq; exact H200).
  unfold try_except, resp_json, bind, emit, ret, raise.
  destruct (json_result r); cbn beta iota; cbn [shown sent]; rewrite <- ?app_assoc;
    rewrite ?app_nil_r; reflexivity.
Qed.

Lemma health_check_ok_witness :
  (forall v u kw, (fun (_ : verb) (_ : pystr) (_ : kwargs) =>
                     Resp (mkResponse 200 (lit "OK") None)) v u kw =
                  Resp (mkResponse 200 (lit "OK") None)) /\
  status_code (mkResponse 200 (lit "OK") None) = 200 /\
  adds (health_check (fun _ _ _ => Resp (mkResponse 200 (lit "OK") None)) (lit "http://b") [])
       (mkWorld [] []) (Ret tt)
       [sidebar_success (check_mark ++ lit " Backend is healthy!")]
       [mkCall GET (lit "http://b" ++ lit "/health") (plain_get [] 5)].
Proof.
  split; [reflexivity | split; [reflexivity |]].
  apply (health_check_ok (fun _ _ _ => Resp (mkResponse 200 (lit "OK") None)) (lit "http://b") []
           (mkResponse 200 (lit "OK") None) (mkWorld [] [])); reflexivity.
Defined.

(** X12: a valid Create/Update submission answered with a status below
    400 shows "User saved successfully!" and then the parsed body, or the
    raw text when the body is not JSON. *)
Theorem create_user_saved (container_str : json -> pystr)
  (transport : verb -> pystr -> kwargs -> result) (BASE_URL token_input : pystr)
  (f : user_form) (r : response) (w : world) :
  (forall v u kw, transport v u kw = Resp r) ->
  first_name f <> [] -> status_code r < 400 ->
  adds (run_action container_str transport BASE_URL token_input (CreateUpdateUser f)) w (Ret tt)
       (st_success (check_mark ++ lit " User saved successfully!")
        :: match json_result r with
           | Some j => [st_json j]
           | None => [st_text_area (lit "Raw response (text)") (text r)]
           end)
       [mkCall POST (BASE_URL ++ lit "/users")
               (mkKwargs (get_headers token_input true) (Some (build_payload f)) 10)].
Proof.
  intros Htr Hf Hlt. unfold adds, run_action.
  destruct (first_name f) as [| c s] eqn:E; [congruence |]. cbn [nonempty negb].
  request_answers Htr. cbn beta iota. rewrite (resp_bool_lt400 r Hlt).
  destruct (json_result r) as [j |] eqn:Hj;
    [erewrite bind_ret_eq by (apply show_response_parsed; eassumption)
    | erewrite bind_ret_eq by (apply show_response_unparsed; eassumption)];
    unfold banner, ret; cbn [nonempty check_mark app]; finish_world.
Qed.

Lemma create_user_saved_witness :
  let f := mkForm (lit "Mara") [] None None [] [] [] [] in
  let resp := mkResponse 201 [] (Some (JObj [(lit "id", JInt 1)])) in
  (forall v u kw, (fun (_ : verb) (_ : pystr) (_ : kwargs) => Resp resp) v u kw = Resp resp) /\
  first_name f <> [] /\ status_code resp < 400 /\
  adds (run_action (fun _ => []) (fun _ _ _ => Resp resp) (lit "http://b") (lit "t")
          (CreateUpdateUser f))
       (mkWorld [] []) (Ret tt)
       [st_success (check_mark ++ lit " User saved successfully!");
        st_json (JObj [(lit "id", JInt 1)])]
       [mkCall POST (lit "http://b" ++ lit "/users")
               (mkKwargs (get_headers (lit "t") true) (Some (build_payload f)) 10)].
Proof.
  intros f resp.
  split; [reflexivity | split; [discriminate | split; [simpl; lia |]]].
  apply (create_user_saved (fun _ => []) (fun _ _ _ => Resp resp) (lit "http://b") (lit "t")
           f resp (mkWorld [] [])); [reflexivity | discriminate | simpl; lia].
Defined.

(** X13: a response with a status of 600 or more is truthy for
    [if resp:], so, unlike a 4xx or 5xx answer (X4), every validated
    action renders it: exactly one error line with the status and the
    error detail, and the run ends normally. *)
Theorem actions_render_status_600 (container_str : json -> pystr)
  (transport : verb -> pystr -> kwargs -> result) (BASE_URL token_input : pystr)
  (r : response) (a : action) (w : world) :
  (forall v u kw, transport v u kw = Resp r) ->
  600 <= status_code r ->
  (forall f, a = CreateUpdateUser f -> first_name f <> []) ->
  let '(v, path, t, auth) := spec_endpoint a in
  adds (run_action container_str transport BASE_URL token_input a) w (Ret tt)
       [st_error (lit "Error " ++ str_int (status_code r) ++ lit ": "
                  ++ error_detail container_str r)]
       [mkCall v (BASE_URL ++ path) (mkKwargs (get_headers token_input auth) (action_body a) t)].
Proof.
  intros Htr Hs Hvalid.
  pose proof (resp_bool_ge600 r Hs) as Hb.
  assert (H200 : (status_code r =? 200) = false) by (apply Z.eqb_neq; lia).
  destruct a; cbn [spec_endpoint action_body]; unfold adds, run_action;
    try (destruct (nonempty (first_name form)) eqn:Hf;
         [cbn [negb] | exfalso; apply (Hvalid form eq_refl);
                        destruct (first_name form); [reflexivity | discriminate Hf]]);
    request_answers Htr; unfold pdf_result; cbn beta iota; rewrite Hb; rewrite ?H200;
    cbn [andb];
    erewrite bind_ret_eq by (apply show_response_error_eq; lia);
    cbn [truthy]; finish_world.
Qed.

Lemma actions_render_status_600_witness :
  let resp := mkResponse 600 (lit "?") None in
  (forall v u kw, (fun (_ : verb) (_ : pystr) (_ : kwargs) => Resp resp) v u kw = Resp resp) /\
  600 <= status_code resp /\
  (forall f, GenerateBooklet 2 = CreateUpdateUser f -> first_name f <> []) /\
  adds (run_action (fun _ => []) (fun _ _ _ => Resp resp) (lit "http://b") [] (GenerateBooklet 2))
       (mkWorld [] []) (Ret tt) [st_error (lit "Error 600: ?")]
       [mkCall GET (lit "http://b" ++ lit "/users/" ++ str_int 2 ++ lit "/booklet")
               (mkKwargs (get_headers [] false) None 120)].
Proof.
  intros resp.
  assert (H : forall f, GenerateBooklet 2 = CreateUpdateUser f -> first_name f <> [])
    by (intros f E; discriminate E).
  split; [reflexivity | split; [simpl; lia | split; [exact H |]]].
  exact (actions_render_status_600 (fun _ => []) (fun _ _ _ => Resp resp) (lit "http://b") []
           resp (GenerateBooklet 2) (mkWorld [] []) (fun _ _ _ => eq_refl)
           ltac:(simpl; lia) H).
Defined.

(** X14: the four read actions (View All Users, Get User by ID, Get
    Placements, Get Big Three) on a response with a status below 400 whose
    body is not JSON show the raw text and nothing else, and end
    normally: the [None] that [show_response] returns is falsy. *)
Theorem read_actions_raw_text (container_str : json -> pystr)
  (transport : verb -> pystr -> kwargs -> result) (BASE_URL token_input : pystr)
  (r : response) (a : action) (w : world) :
  (forall v u kw, transport v u kw = Resp r) ->
  status_code r < 400 -> json_result r = None ->
  match a with
  | ViewAllUsers | GetUserByID _ | GetPlacements _ | GetBigThree _ => True
  | _ => False
  end ->
  let '(v, path, t, auth) := spec_endpoint a in
  adds (run_action container_str transport BASE_URL token_input a) w (Ret tt)
       [st_text_area (lit "Raw response (text)") (text r)]
       [mkCall v (BASE_URL ++ path) (mkKwargs (get_headers token_input auth) (action_body a) t)].
Proof.
  intros Htr Hlt Hj Ha.
  destruct a; try contradiction Ha; cbn [spec_endpoint action_body]; unfold adds, run_action;
    request_answers Htr; cbn beta iota; rewrite (resp_bool_lt400 r Hlt);
    erewrite bind_ret_eq by (apply show_response_unparsed; eassumption);
    cbn [truthy banner]; finish_world.
Qed.

Lemma read_actions_raw_text_witness :
  let resp := mkResponse 200 (lit "<html>") None in
  (forall v u kw, (fun (_ : verb) (_ : pystr) (_ : kwargs) => Resp resp) v u kw = Resp resp) /\
  status_code resp < 400 /\ json_result resp = None /\
  adds (run_action (fun _ => []) (fun _ _ _ => Resp resp) (lit "http://b") [] (GetPlacements 3))
       (mkWorld [] []) (Ret tt) [st_text_area (lit "Raw response (text)") (lit "<html>")]
       [mkCall GET (lit "http://b" ++ lit "/users/" ++ str_int 3 ++ lit "/placements")
               (mkKwargs (get_headers [] false) None 30)].
Proof.
  intros resp.
  split; [reflexivity | split; [simpl; lia | split; [reflexivity |]]].
  exact (read_actions_raw_text (fun _ => []) (fun _ _ _ => Resp resp) (lit "http://b") []
           resp (GetPlacements 3) (mkWorld [] []) (fun _ _ _ => eq_refl)
           ltac:(simpl; lia) eq_refl I).
Defined.

(** X15: Generate Booklet and Generate Calendar on a 200 response show
    exactly the success message and the note about the Downloads folder:
    the body is never parsed nor shown, whatever it is. *)
Theorem pdf_actions_ok (container_str : json -> pystr)
  (transport : verb -> pystr -> kwargs -> result) (BASE_URL token_input : pystr)
  (r : response) (a : action) (w : world) :
  (forall v u kw, transport v u kw = Resp r) -> status_code r = 200 ->
  match a with
  | GenerateBooklet _ | GenerateCalendar _ _ => True
  | _ => False
  end ->
  let '(v, path, t, auth) := spec_endpoint a in
  adds (run_action container_str transport BASE_URL token_input a) w (Ret tt)
       [st_success (check_mark ++ match a with
                                  | GenerateBooklet _ => lit " Booklet generated successfully!"
                                  | _ => lit " Calendar generated successfully!"
                                  end);
        st_info (lit "The PDF has been saved to your Downloads folder.")]
       [mkCall v (BASE_URL ++ path) (mkKwargs (get_headers token_input auth) (action_body a) t)].
Proof.
  intros Htr H200 Ha.
  pose proof (resp_bool_lt400 r ltac:(lia)) as Hb.
  destruct a; try contradiction Ha; cbn [spec_endpoint action_body]; unfold adds, run_action;
    request_answers Htr; unfold pdf_result; cbn beta iota; rewrite Hb;
    replace (status_code r =? 200) with true by (symmetry; apply Z.eqb_eq; exact H200);
    cbn [andb]; unfold bind, emit; finish_world.
Qed.

Lemma pdf_actions_ok_witness :
  let resp := mkResponse 200 (lit "%PDF") None in
  (forall v u kw, (fun (_ : verb) (_ : pystr) (_ : kwargs) => Resp resp) v u kw = Resp resp) /\
  status_code resp = 200 /\
  adds (run_action (fun _ => []) (fun _ _ _ => Resp resp) (lit "http://b") []
          (GenerateCalendar 5 2026))
       (mkWorld [] []) (Ret tt)
       [st_success (check_mark ++ lit " Calendar generated successfully!");
        st_info (lit "The PDF has been saved to your Downloads folder.")]
       [mkCall GET (lit "http://b" ++ lit "/users/" ++ str_int 5 ++ lit "/calendar"
                    ++ lit "?year=" ++ str_int 2026)
               (mkKwargs (get_headers [] false) None 120)].
Proof.
  intros resp.
  split; [reflexivity | split; [reflexivity |]].
  exact (pdf_actions_ok (fun _ => []) (fun _ _ _ => Resp resp) (lit "http://b") []
           resp (GenerateCalendar 5 2026) (mkWorld [] []) (fun _ _ _ => eq_refl) eq_refl I).
Defined.
